(** * Task service (flask-app/app.py): task collection and request handlers

    The module-level list [tasks] of app.py is the only state of the
    service.  Every route handler is embedded as a function from the
    current list to a response and the list after the call.  What the
    handlers take from their environment is passed in explicitly:
    the outcome of [request.get_json()] and the text of
    [datetime.utcnow().isoformat()]. *)

From Stdlib Require Import ZArith String SpecFloat.
From stdpp Require Import gmap strings list fin_maps pretty sorting.

Local Open Scope string_scope.
Local Open Scope list_scope.
Local Open Scope Z_scope.

(** ** Values decoded from a JSON body

    [request.get_json()] yields None, a bool, an int, a float, a str, a list
    or a dict with str keys.  A float is an IEEE 754 binary64 value, kept
    here as its sign, mantissa and exponent. *)

#[warnings="-register-all"]
Inductive json : Type :=
  | JNull
  | JBool (b : bool)
  | JInt (z : Z)
  | JFloat (f : spec_float)
  | JStr (s : string)
  | JArr (l : list json)
  | JObj (m : gmap string json).

(** Python truth value, as tested by [if x] and [not x]. *)
Definition truthy (v : json) : bool :=
  match v with
  | JNull => false
  | JBool b => b
  | JInt z => negb (Z.eqb z 0)
  | JFloat (S754_zero _) => false
  | JFloat _ => true
  | JStr s => negb (String.eqb s "")
  | JArr l => negb (bool_decide (l = []))
  | JObj m => negb (bool_decide (m = ∅))
  end.

(** ** Exceptions and the handler monad *)

(** The exceptions the handlers can meet; each is a subclass of
    [Exception].  [BadRequest] stands for the werkzeug HTTP exception that
    [get_json()] raises when it cannot load the body. *)
Inductive exn : Type :=
  | TypeError
  | AttributeError
  | KeyError
  | BadRequest.

Inductive outcome (A : Type) : Type :=
  | Return (a : A)
  | Raise (e : exn).
Arguments Return {A} a.
Arguments Raise {A} e.

Module Task.

(** One element of [tasks]: a dict with exactly these five keys. *)
Record t : Type := Make {
  id : Z;
  title : json;
  description : json;
  completed : json;
  created_at : string
}.

End Task.

(** A computation over the global list: a value or a raised exception,
    together with the list as it is when the computation stops. *)
Definition M (A : Type) : Type := list Task.t → outcome A * list Task.t.

#[local] Instance M_ret : MRet M := λ A a tasks, (Return a, tasks).

#[local] Instance M_bind : MBind M := λ A B k c tasks,
  match c tasks with
  | (Return a, tasks') => k a tasks'
  | (Raise e, tasks') => (Raise e, tasks')
  end.

Definition lift {A} (o : outcome A) : M A := λ tasks, (o, tasks).
Definition read_tasks : M (list Task.t) := λ tasks, (Return tasks, tasks).
Definition write_tasks (new : list Task.t) : M unit := λ _, (Return tt, new).

(** [task[key] = v] on the dict stored at index [i] of the list: the list
    cell is mutated in place. *)
Definition modify_task (i : nat) (f : Task.t → Task.t) : M unit :=
  λ tasks, (Return tt, alter f i tasks).

(** ** Dict, list and str operations used on the body *)

Fixpoint str_contains (needle hay : string) : bool :=
  String.prefix needle hay ||
  match hay with
  | EmptyString => false
  | String _ rest => str_contains needle rest
  end.

Definition is_str (key : string) (v : json) : bool :=
  match v with
  | JStr s => String.eqb s key
  | _ => false
  end.

(** [key in data]: key lookup on a dict, element search on a list,
    substring search on a str, TypeError on anything else. *)
Definition py_in (key : string) (data : json) : outcome bool :=
  match data with
  | JObj m => Return (bool_decide (is_Some (m !! key)))
  | JArr l => Return (existsb (is_str key) l)
  | JStr s => Return (str_contains key s)
  | _ => Raise TypeError
  end.

(** [data[key]] with a str key. *)
Definition py_getitem (data : json) (key : string) : outcome json :=
  match data with
  | JObj m =>
      match m !! key with
      | Some v => Return v
      | None => Raise KeyError
      end
  | _ => Raise TypeError
  end.

(** [data.get(key, dflt)]: only a dict has the method. *)
Definition py_get (data : json) (key : string) (dflt : json) : outcome json :=
  match data with
  | JObj m => Return (default dflt (m !! key))
  | _ => Raise AttributeError
  end.

(** [max(ids, default=d)]. *)
Definition py_max (ids : list Z) (d : Z) : Z :=
  match ids with
  | [] => d
  | x :: rest => foldl Z.max x rest
  end.

(** ** Requests and responses *)

(** The body of a request as [request.get_json()] sees it. *)
Inductive request_body : Type :=
  | Json (data : json)
  | Malformed.

Definition get_json (b : request_body) : outcome json :=
  match b with
  | Json data => Return data
  | Malformed => Raise BadRequest
  end.

(** The dict handed to [jsonify]. *)
Inductive payload : Type :=
  | PTask (task : Task.t)
  | PError (error : string)
  | PMessage (message : string)
  | PTasks (tasks : list Task.t) (count : nat)
  | PMetrics (total_tasks completed_tasks pending_tasks : nat)
             (timestamp : string).

Record response : Type := Response {
  body : payload;
  status : Z
}.

(** [try: ... except Exception as e: ... return 500]. *)
Definition try_except (c : M response) (tasks : list Task.t)
  : response * list Task.t :=
  match c tasks with
  | (Return r, tasks') => (r, tasks')
  | (Raise _, tasks') =>
      (Response (PError "Internal server error") 500, tasks')
  end.

(** [next((task for task in tasks if task["id"] == task_id), None)],
    with the position of the task found. *)
Definition find_task (task_id : Z) (tasks : list Task.t)
  : option (nat * Task.t) :=
  list_find (λ task, Task.id task = task_id) tasks.

(** ** The collection at start-up *)

Definition seed : list Task.t :=
  [ Task.Make 1 (JStr "Learn Docker") (JStr "Understand containerization")
      (JBool false) "2024-01-01T00:00:00Z";
    Task.Make 2 (JStr "Learn Kubernetes")
      (JStr "Master container orchestration")
      (JBool false) "2024-01-02T00:00:00Z" ].

(** ** Route handlers *)

(** GET /tasks *)
Definition get_tasks (tasks : list Task.t) : response * list Task.t :=
  (Response (PTasks tasks (length tasks)) 200, tasks).

(** GET /tasks/<int:task_id> *)
Definition get_task (task_id : Z) (tasks : list Task.t)
  : response * list Task.t :=
  match find_task task_id tasks with
  | Some (_, task) => (Response (PTask task) 200, tasks)
  | None => (Response (PError "Task not found") 404, tasks)
  end.

(** POST /tasks; [now] is [datetime.utcnow().isoformat()]. *)
Definition create_task_try (req : request_body) (now : string) : M response :=
  data ← lift (get_json req);
  no_title ← lift (if negb (truthy data) then Return true
                   else match py_in "title" data with
                        | Return b => Return (negb b)
                        | Raise e => Raise e
                        end);
  if (no_title : bool) then
    mret (Response (PError "Title is required") 400)
  else
    tasks ← read_tasks;
    let new_id := py_max (Task.id <$> tasks) 0 + 1 in
    new_title ← lift (py_getitem data "title");
    new_description ← lift (py_get data "description" (JStr ""));
    let new_task :=
      Task.Make new_id new_title new_description (JBool false) (now +:+ "Z") in
    _ ← write_tasks (tasks ++ [new_task]);
    mret (Response (PTask new_task) 201).

Definition create_task (req : request_body) (now : string)
    (tasks : list Task.t) : response * list Task.t :=
  try_except (create_task_try req now) tasks.

Definition set_title (v : json) (task : Task.t) : Task.t :=
  Task.Make (Task.id task) v (Task.description task) (Task.completed task)
    (Task.created_at task).
Definition set_description (v : json) (task : Task.t) : Task.t :=
  Task.Make (Task.id task) (Task.title task) v (Task.completed task)
    (Task.created_at task).
Definition set_completed (v : json) (task : Task.t) : Task.t :=
  Task.Make (Task.id task) (Task.title task) (Task.description task) v
    (Task.created_at task).

(** The dict at index [i], read back from the list after it was mutated. *)
Definition task_at (i : nat) (dflt : Task.t) : M Task.t :=
  λ tasks, (Return (default dflt (tasks !! i)), tasks).

(** PUT /tasks/<int:task_id> *)
Definition update_task_try (task_id : Z) (req : request_body) : M response :=
  tasks ← read_tasks;
  match find_task task_id tasks with
  | None => mret (Response (PError "Task not found") 404)
  | Some (i, found) =>
      data ← lift (get_json req);
      if negb (truthy data) then
        mret (Response (PError "No data provided") 400)
      else
        task ← task_at i found;
        v ← lift (py_get data "title" (Task.title task));
        _ ← modify_task i (set_title v);
        task ← task_at i found;
        v ← lift (py_get data "description" (Task.description task));
        _ ← modify_task i (set_description v);
        task ← task_at i found;
        v ← lift (py_get data "completed" (Task.completed task));
        _ ← modify_task i (set_completed v);
        task ← task_at i found;
        mret (Response (PTask task) 200)
  end.

Definition update_task (task_id : Z) (req : request_body)
    (tasks : list Task.t) : response * list Task.t :=
  try_except (update_task_try task_id req) tasks.

(** DELETE /tasks/<int:task_id> *)
Definition delete_task_try (task_id : Z) : M response :=
  tasks ← read_tasks;
  match find_task task_id tasks with
  | None => mret (Response (PError "Task not found") 404)
  | Some _ =>
      _ ← write_tasks (filter (λ task, Task.id task ≠ task_id) tasks);
      mret (Response
              (PMessage ("Task " +:+ pretty task_id +:+ " deleted successfully"))
              200)
  end.

Definition delete_task (task_id : Z) (tasks : list Task.t)
  : response * list Task.t :=
  try_except (delete_task_try task_id) tasks.

(** GET /metrics *)
Definition metrics (now : string) (tasks : list Task.t)
  : response * list Task.t :=
  (Response
     (PMetrics
        (length tasks)
        (length (filter (λ task, truthy (Task.completed task) = true) tasks))
        (length (filter (λ task, negb (truthy (Task.completed task)) = true)
                   tasks))
        (now +:+ "Z"))
     200,
   tasks).

(** ** The router over the task routes *)

Inductive request : Type :=
  | GET_tasks
  | GET_task (task_id : Z)
  | POST_tasks (req : request_body) (now : string)
  | PUT_task (task_id : Z) (req : request_body)
  | DELETE_task (task_id : Z)
  | GET_metrics (now : string).

Definition handle (r : request) (tasks : list Task.t)
  : response * list Task.t :=
  match r with
  | GET_tasks => get_tasks tasks
  | GET_task task_id => get_task task_id tasks
  | POST_tasks req now => create_task req now tasks
  | PUT_task task_id req => update_task task_id req tasks
  | DELETE_task task_id => delete_task task_id tasks
  | GET_metrics now => metrics now tasks
  end.

(** The lists the process can hold: the seed list and whatever a request
    leaves behind. *)
Inductive reachable : list Task.t → Prop :=
  | reachable_seed : reachable seed
  | reachable_handle r tasks :
      reachable tasks → reachable (handle r tasks).2.

(** Serving a sequence of requests in order, collecting the responses. *)
Fixpoint serve (rs : list request) (tasks : list Task.t)
  : list response * list Task.t :=
  match rs with
  | [] => ([], tasks)
  | r :: rest =>
      let '(resp, tasks') := handle r tasks in
      let '(resps, final) := serve rest tasks' in
      (resp :: resps, final)
  end.

(** ** Definitions used to state the properties *)

(** The task a PUT body [m] leaves at the position of [task]. *)
Definition patched (m : gmap string json) (task : Task.t) : Task.t :=
  set_completed (default (Task.completed task) (m !! "completed"))
    (set_description (default (Task.description task) (m !! "description"))
       (set_title (default (Task.title task) (m !! "title")) task)).

(** The number of tasks that satisfy a test, counted one task at a time. *)
Fixpoint count_where (p : Task.t → bool) (tasks : list Task.t) : nat :=
  match tasks with
  | [] => 0%nat
  | task :: rest =>
      ((if p task then 1 else 0) + count_where p rest)%nat
  end.

(** The JSON value [true] itself. *)
Definition is_json_true (v : json) : bool :=
  match v with
  | JBool true => true
  | _ => false
  end.

(** Bodies used to exercise the handlers. *)
Definition body_test_task : gmap string json :=
  list_to_map [("title", JStr "Test Task");
               ("description", JStr "This is a test task")].
Definition body_empty_title : gmap string json :=
  list_to_map [("title", JStr "")].
Definition body_no_title : gmap string json :=
  list_to_map [("description", JStr "This task has no title")].
Definition body_update : gmap string json :=
  list_to_map [("title", JStr "Updated Task"); ("completed", JBool true)].

(** The values Python's truth test takes for false: None, False, a zero
    number, and the empty str, list and dict.  Every other value counts
    as true, the string "no" and the number 2 among them. *)
Inductive falsy : json → Prop :=
  | falsy_None : falsy JNull
  | falsy_False : falsy (JBool false)
  | falsy_int : falsy (JInt 0)
  | falsy_float s : falsy (JFloat (S754_zero s))
  | falsy_str : falsy (JStr "")
  | falsy_list : falsy (JArr [])
  | falsy_dict : falsy (JObj ∅).

#[local] Instance falsy_dec (v : json) : Decision (falsy v).
Proof.
  destruct v as [| [|] | z | f | s | l | m].
  - left. constructor.
  - right. inversion 1.
  - left. constructor.
  - destruct (decide (z = 0)) as [->|Hz]; [left; constructor|].
    right. inversion 1. by apply Hz.
  - destruct f; try (right; inversion 1; fail). left. constructor.
  - destruct (decide (s = "")) as [->|Hs]; [left; constructor|].
    right. inversion 1. by apply Hs.
  - destruct l; [left; constructor|right; inversion 1].
  - destruct (decide (m = ∅)) as [->|Hm]; [left; constructor|].
    right. inversion 1. by apply Hm.
Defined.

(** A task whose completed field is a JSON boolean. *)
Definition boolean_completed (task : Task.t) : Prop :=
  ∃ b, Task.completed task = JBool b.

(** A request that, if it is a PUT with a completed key, carries a JSON
    boolean under it. *)
Definition sets_boolean (r : request) : Prop :=
  match r with
  | PUT_task _ (Json (JObj m)) =>
      ∀ v, m !! "completed" = Some v → ∃ b, v = JBool b
  | _ => True
  end.

(** The lists the process can hold when no PUT has set completed to
    anything but a JSON boolean. *)
Inductive reachable_booleans : list Task.t → Prop :=
  | reachable_booleans_seed : reachable_booleans seed
  | reachable_booleans_handle r tasks :
      reachable_booleans tasks → sets_boolean r →
      reachable_booleans (handle r tasks).2.

(** ** Configuration and the informational endpoints

    [os.environ] is a map from names to values; [os.getenv(key, default)]
    gives the default only when the name is not set. *)

Definition getenv (environ : gmap string string) (key dflt : string)
  : string :=
  default dflt (environ !! key).

(** [c.lower()] on one character: the letters A to Z are moved to a to z.
    Characters outside ASCII are kept as they are; none of them
    lower-cases to a letter of true, 1 or t, so the test below is not
    affected. *)
Definition lower_char (c : Ascii.ascii) : Ascii.ascii :=
  let n := Ascii.N_of_ascii c in
  if ((65 <=? n) && (n <=? 90))%N then Ascii.ascii_of_N (n + 32) else c.

Fixpoint lower (s : string) : string :=
  match s with
  | EmptyString => EmptyString
  | String c rest => String (lower_char c) (lower rest)
  end.

(** [app.config['DEBUG'] =
      os.getenv('FLASK_DEBUG', 'False').lower() in ['true', '1', 't']] *)
Definition config_DEBUG (environ : gmap string string) : bool :=
  bool_decide (lower (getenv environ "FLASK_DEBUG" "False") ∈
               ["true"; "1"; "t"]).

(** [app.config['HOST'] = os.getenv('FLASK_HOST', '0.0.0.0')] *)
Definition config_HOST (environ : gmap string string) : string :=
  getenv environ "FLASK_HOST" "0.0.0.0".

(** The dict [home()] hands to [jsonify]; [kubernetes_info] is the inner
    dict. *)
Record kubernetes_info : Type := KubernetesInfo {
  pod_name : string;
  namespace : string;
  node_name : string
}.

Record home_payload : Type := HomePayload {
  home_message : string;
  home_version : string;
  home_timestamp : string;
  home_environment : string;
  home_kubernetes_info : kubernetes_info
}.

(** GET /; the answer carries no status of its own, so it is 200. *)
Definition home (environ : gmap string string) (now : string)
  : home_payload * Z :=
  (HomePayload "Flask App Running on EKS!" "1.0.0" (now +:+ "Z")
     (getenv environ "ENVIRONMENT" "development")
     (KubernetesInfo (getenv environ "HOSTNAME" "unknown")
        (getenv environ "POD_NAMESPACE" "default")
        (getenv environ "NODE_NAME" "unknown")),
   200).

(** Two characters that are the same letter, in either case, or the same
    character. *)
Definition same_letter (c d : Ascii.ascii) : Prop :=
  c = d ∨
  (let n := Ascii.N_of_ascii c in
   let k := Ascii.N_of_ascii d in
   ((65 ≤ n ≤ 90)%N ∧ k = (n + 32)%N) ∨ ((65 ≤ k ≤ 90)%N ∧ n = (k + 32)%N)).

(** Two strings that differ at most in the case of their letters. *)
Fixpoint same_letters (s t : string) : Prop :=
  match s, t with
  | EmptyString, EmptyString => True
  | String c s', String d t' => same_letter c d ∧ same_letters s' t'
  | _, _ => False
  end.

(** ** The tests of test_app.py on the task routes *)

(** The ten tests that send a request to a task route or to /metrics.
    They share the module's [tasks] list: no fixture resets it. *)
Inductive test : Type :=
  | test_get_tasks
  | test_get_single_task
  | test_get_nonexistent_task
  | test_create_task
  | test_create_task_missing_title
  | test_update_task
  | test_update_nonexistent_task
  | test_delete_task
  | test_delete_nonexistent_task
  | test_metrics_endpoint.

#[local] Instance test_eq_dec : EqDecision test.
Proof. solve_decision. Defined.

(** [v == s] for a str [s]: only an equal str compares equal. *)
Definition py_eq_str (v : json) (s : string) : bool :=
  match v with
  | JStr s' => String.eqb s' s
  | _ => false
  end.

(** [v == b] for a bool [b].  A bool is the int 0 or 1 and numbers compare
    by value, so 0 and 0.0 equal False, 1 and 1.0 equal True. *)
Definition py_eq_bool (v : json) (b : bool) : bool :=
  match v with
  | JBool b' => Bool.eqb b' b
  | JInt z => Z.eqb z (if b then 1 else 0)
  | JFloat f =>
      SFeqb f (if b then S754_finite false 4503599627370496 (-52)
               else S754_zero false)
  | _ => false
  end.

(** The request a test sends; [now] is the clock reading the handler
    takes while it serves it. *)
Definition test_request (t : test) (now : string) : request :=
  match t with
  | test_get_tasks => GET_tasks
  | test_get_single_task => GET_task 1
  | test_get_nonexistent_task => GET_task 999
  | test_create_task => POST_tasks (Json (JObj body_test_task)) now
  | test_create_task_missing_title =>
      POST_tasks (Json (JObj body_no_title)) now
  | test_update_task => PUT_task 1 (Json (JObj body_update))
  | test_update_nonexistent_task =>
      PUT_task 999 (Json (JObj {["title" := JStr "Updated Task"]}))
  | test_delete_task => DELETE_task 2
  | test_delete_nonexistent_task => DELETE_task 999
  | test_metrics_endpoint => GET_metrics now
  end.

(** [data['error'] == msg]; a body without the key raises KeyError, which
    fails the test. *)
Definition error_is (msg : string) (r : response) : bool :=
  match body r with
  | PError error => String.eqb error msg
  | _ => false
  end.

(** The assert statements of a test, on the response it got. *)
Definition test_asserts (t : test) (r : response) : bool :=
  match t with
  | test_get_tasks =>
      Z.eqb (status r) 200 &&
      match body r with PTasks _ _ => true | _ => false end
  | test_get_single_task =>
      Z.eqb (status r) 200 &&
      match body r with
      | PTask task => Z.eqb (Task.id task) 1
      | _ => false
      end
  | test_get_nonexistent_task =>
      Z.eqb (status r) 404 && error_is "Task not found" r
  | test_create_task =>
      Z.eqb (status r) 201 &&
      match body r with
      | PTask task =>
          py_eq_str (Task.title task) "Test Task" &&
          py_eq_str (Task.description task) "This is a test task" &&
          py_eq_bool (Task.completed task) false
      | _ => false
      end
  | test_create_task_missing_title =>
      Z.eqb (status r) 400 && error_is "Title is required" r
  | test_update_task =>
      Z.eqb (status r) 200 &&
      match body r with
      | PTask task =>
          py_eq_str (Task.title task) "Updated Task" &&
          py_eq_bool (Task.completed task) true
      | _ => false
      end
  | test_update_nonexistent_task =>
      Z.eqb (status r) 404 && error_is "Task not found" r
  | test_delete_task =>
      Z.eqb (status r) 200 &&
      match body r with
      | PMessage message => str_contains "deleted successfully" message
      | _ => false
      end
  | test_delete_nonexistent_task =>
      Z.eqb (status r) 404 && error_is "Task not found" r
  | test_metrics_endpoint =>
      Z.eqb (status r) 200 &&
      match body r with PMetrics _ _ _ _ => true | _ => false end
  end.

(** A test session: the tests run one after the other on the list the
    previous one left; a failed test does not stop the session.  The
    result tells whether every test passed. *)
Fixpoint run_tests (clock : test → string) (order : list test)
    (tasks : list Task.t) : bool :=
  match order with
  | [] => true
  | t :: rest =>
      let '(r, tasks') := handle (test_request t (clock t)) tasks in
      test_asserts t r && run_tests clock rest tasks'
  end.

(** The tests in the order of the file. *)
Definition file_order : list test :=
  [test_get_tasks; test_get_single_task; test_get_nonexistent_task;
   test_create_task; test_create_task_missing_title; test_update_task;
   test_update_nonexistent_task; test_delete_task;
   test_delete_nonexistent_task; test_metrics_endpoint].

(** What the tests still to run need of the list: task 1 is stored, task 2
    is stored while the delete test is to come, no id is above 3, and none
    is above 2 while the create test is to come. *)
Definition tests_can_run (rest : list test) (tasks : list Task.t) : Prop :=
  1 ∈ (Task.id <$> tasks) ∧
  (test_delete_task ∈ rest → 2 ∈ (Task.id <$> tasks)) ∧
  (∀ i, i ∈ (Task.id <$> tasks) → i ≤ 3) ∧
  (test_create_task ∈ rest → ∀ i, i ∈ (Task.id <$> tasks) → i ≤ 2).

(** * Properties *)

(** ** The handlers on the requests of test_app.py *)

Example ex_create :
  create_task (Json (JObj body_test_task)) "2024-01-03T00:00:00" seed =
    (Response
       (PTask (Task.Make 3 (JStr "Test Task") (JStr "This is a test task")
                 (JBool false) "2024-01-03T00:00:00Z")) 201,
     seed ++ [Task.Make 3 (JStr "Test Task") (JStr "This is a test task")
                (JBool false) "2024-01-03T00:00:00Z"]).
Proof. vm_compute. reflexivity. Qed.

Example ex_update :
  update_task 1 (Json (JObj body_update)) seed =
    (Response
       (PTask (Task.Make 1 (JStr "Updated Task")
                 (JStr "Understand containerization") (JBool true)
                 "2024-01-01T00:00:00Z")) 200,
     [Task.Make 1 (JStr "Updated Task") (JStr "Understand containerization")
        (JBool true) "2024-01-01T00:00:00Z";
      Task.Make 2 (JStr "Learn Kubernetes")
        (JStr "Master container orchestration")
        (JBool false) "2024-01-02T00:00:00Z"]).
Proof. vm_compute. reflexivity. Qed.

Example ex_delete :
  delete_task 2 seed =
    (Response (PMessage "Task 2 deleted successfully") 200,
     [Task.Make 1 (JStr "Learn Docker") (JStr "Understand containerization")
        (JBool false) "2024-01-01T00:00:00Z"]).
Proof. vm_compute. reflexivity. Qed.

Example ex_get_unknown :
  get_task 999 seed = (Response (PError "Task not found") 404, seed).
Proof. vm_compute. reflexivity. Qed.

(** ** Auxiliary facts on the body operations *)

Lemma truthy_obj_lookup (m : gmap string json) k v :
  m !! k = Some v → truthy (JObj m) = true.
Proof.
  intros Hk. simpl. apply negb_true_iff, bool_decide_eq_false.
  intros ->. by rewrite lookup_empty in Hk.
Qed.

Lemma truthy_obj_empty : truthy (JObj ∅) = false.
Proof. reflexivity. Qed.

Lemma py_max_foldl_ge (l : list Z) (x : Z) :
  x ≤ foldl Z.max x l ∧ ∀ y, y ∈ l → y ≤ foldl Z.max x l.
Proof.
  revert x. induction l as [|a l IH]; intros x; simpl.
  - split; [lia|]. intros y Hy. by apply elem_of_nil in Hy.
  - destruct (IH (Z.max x a)) as [H1 H2]. split; [lia|].
    intros y [->|Hy]%elem_of_cons; [lia|auto].
Qed.

Lemma py_max_foldl_in (l : list Z) (x : Z) :
  foldl Z.max x l = x ∨ foldl Z.max x l ∈ l.
Proof.
  revert x. induction l as [|a l IH]; intros x; simpl; [by left|].
  destruct (IH (Z.max x a)) as [H|H].
  - rewrite H. destruct (Z.max_spec x a) as [[_ ->]|[_ ->]].
    + right. apply elem_of_cons. by left.
    + by left.
  - right. apply elem_of_cons. by right.
Qed.

Lemma py_max_ge (ids : list Z) (d y : Z) : y ∈ ids → y ≤ py_max ids d.
Proof.
  destruct ids as [|x l]; simpl; [by intros ?%elem_of_nil|].
  destruct (py_max_foldl_ge l x) as [H1 H2].
  intros [->|Hy]%elem_of_cons; auto.
Qed.

Lemma py_max_in (ids : list Z) (d : Z) : ids ≠ [] → py_max ids d ∈ ids.
Proof.
  destruct ids as [|x l]; [done|]. intros _. simpl.
  destruct (py_max_foldl_in l x) as [->|H]; apply elem_of_cons; auto.
Qed.

(** ** Auxiliary facts on the search by id *)

Lemma find_task_Some task_id tasks i task :
  find_task task_id tasks = Some (i, task) →
  tasks !! i = Some task ∧ Task.id task = task_id ∧
  ∀ j other, tasks !! j = Some other → (j < i)%nat → Task.id other ≠ task_id.
Proof. unfold find_task. by rewrite list_find_Some. Qed.

Lemma find_task_None task_id tasks :
  find_task task_id tasks = None ↔ task_id ∉ (Task.id <$> tasks).
Proof.
  unfold find_task. rewrite list_find_None, Forall_forall. split.
  - intros H (task & Hid & Hin)%list_elem_of_fmap. by apply (H task).
  - intros H task Hin Hid. apply H, list_elem_of_fmap. eauto.
Qed.

Lemma find_task_is_Some task_id tasks :
  task_id ∈ (Task.id <$> tasks) → is_Some (find_task task_id tasks).
Proof.
  intros Hin. destruct (find_task task_id tasks) eqn:E; [eauto|].
  by apply find_task_None in E.
Qed.

(** ** What each handler does, as equations *)

Lemma create_task_obj_title tasks now (m : gmap string json) v :
  m !! "title" = Some v →
  create_task (Json (JObj m)) now tasks =
    let new_task :=
      Task.Make (py_max (Task.id <$> tasks) 0 + 1) v
        (default (JStr "") (m !! "description")) (JBool false) (now +:+ "Z") in
    (Response (PTask new_task) 201, tasks ++ [new_task]).
Proof.
  intros Hv. pose proof (truthy_obj_lookup _ _ _ Hv) as Ht.
  unfold create_task, try_except, create_task_try, mbind, M_bind, lift.
  cbn [get_json]. rewrite Ht. cbn [negb py_in py_getitem py_get].
  rewrite Hv. rewrite bool_decide_eq_true_2 by eauto. reflexivity.
Qed.

Lemma create_task_no_title tasks now data :
  truthy data = false ∨ (∃ m, data = JObj m ∧ m !! "title" = None) →
  create_task (Json data) now tasks =
    (Response (PError "Title is required") 400, tasks).
Proof.
  unfold create_task, try_except, create_task_try, mbind, M_bind, lift.
  cbn [get_json]. intros [Hf|(m & -> & Hm)].
  - by rewrite Hf.
  - destruct (truthy (JObj m)); cbn [negb py_in]; [|done].
    rewrite Hm. rewrite bool_decide_eq_false_2; [done|].
    by intros [? ?].
Qed.

Lemma create_task_malformed tasks now :
  create_task Malformed now tasks =
    (Response (PError "Internal server error") 500, tasks).
Proof. reflexivity. Qed.

Lemma update_task_missing tasks task_id req :
  find_task task_id tasks = None →
  update_task task_id req tasks =
    (Response (PError "Task not found") 404, tasks).
Proof.
  intros Hf. unfold update_task, try_except, update_task_try, mbind, M_bind.
  cbn [read_tasks]. by rewrite Hf.
Qed.

Lemma update_task_falsy tasks task_id data i found :
  find_task task_id tasks = Some (i, found) →
  truthy data = false →
  update_task task_id (Json data) tasks =
    (Response (PError "No data provided") 400, tasks).
Proof.
  intros Hf Ht. unfold update_task, try_except, update_task_try, mbind, M_bind.
  cbn [read_tasks]. rewrite Hf. cbn [lift get_json]. by rewrite Ht.
Qed.

Lemma update_task_malformed tasks task_id i found :
  find_task task_id tasks = Some (i, found) →
  update_task task_id Malformed tasks =
    (Response (PError "Internal server error") 500, tasks).
Proof.
  intros Hf. unfold update_task, try_except, update_task_try, mbind, M_bind.
  cbn [read_tasks]. by rewrite Hf.
Qed.

Lemma update_task_obj tasks task_id (m : gmap string json) i found :
  find_task task_id tasks = Some (i, found) →
  m ≠ ∅ →
  update_task task_id (Json (JObj m)) tasks =
    (Response (PTask (patched m found)) 200, <[i := patched m found]> tasks).
Proof.
  intros Hf Hm. destruct (find_task_Some _ _ _ _ Hf) as (Hi & _ & _).
  assert (truthy (JObj m) = true) as Ht.
  { simpl. by apply negb_true_iff, bool_decide_eq_false. }
  unfold update_task, try_except, update_task_try, mbind, M_bind.
  cbn [read_tasks]. rewrite Hf. cbn [lift get_json]. rewrite Ht.
  cbn [negb task_at modify_task py_get lift].
  rewrite Hi. cbn [default].
  rewrite !list_lookup_alter_eq, Hi. cbn [fmap option_fmap option_map default].
  rewrite !list_alter_alter_eq.
  f_equal. rewrite list_insert_alter.
  apply list_alter_ext; [|done]. intros x Hx.
  rewrite Hi in Hx. by injection Hx as <-.
Qed.

Lemma delete_task_missing tasks task_id :
  find_task task_id tasks = None →
  delete_task task_id tasks = (Response (PError "Task not found") 404, tasks).
Proof.
  intros Hf. unfold delete_task, try_except, delete_task_try, mbind, M_bind.
  cbn [read_tasks]. by rewrite Hf.
Qed.

Lemma delete_task_found tasks task_id i found :
  find_task task_id tasks = Some (i, found) →
  delete_task task_id tasks =
    (Response
       (PMessage ("Task " +:+ pretty task_id +:+ " deleted successfully")) 200,
     filter (λ task, Task.id task ≠ task_id) tasks).
Proof.
  intros Hf. unfold delete_task, try_except, delete_task_try, mbind, M_bind.
  cbn [read_tasks]. by rewrite Hf.
Qed.

(** Every way a POST can end, and the list it leaves. *)
Lemma create_task_cases req now tasks :
  (create_task req now tasks).2 = tasks ∧
    (status (create_task req now tasks).1 = 400 ∨
     status (create_task req now tasks).1 = 500)
  ∨ ∃ v d,
      create_task req now tasks =
        let new_task :=
          Task.Make (py_max (Task.id <$> tasks) 0 + 1) v d (JBool false)
            (now +:+ "Z") in
        (Response (PTask new_task) 201, tasks ++ [new_task]).
Proof.
  destruct req as [data|]; [|left; rewrite create_task_malformed; auto].
  destruct (truthy data) eqn:Ht.
  2:{ left. rewrite create_task_no_title by auto. auto. }
  destruct data as [| b | z | f | s | l | m].
  7:{ destruct (m !! "title") as [v|] eqn:Hv.
      - right. eexists _, _. by apply create_task_obj_title.
      - left. rewrite create_task_no_title by eauto. auto. }
  all: left; unfold create_task, try_except, create_task_try, mbind, M_bind,
         lift; cbn [get_json]; rewrite Ht; cbn [negb py_in].
  all: try (split; [reflexivity | right; reflexivity]).
  - destruct (str_contains "title" s); cbn; auto.
  - destruct (existsb (is_str "title") l); cbn; auto.
Qed.

(** Every way a PUT can end, and the list it leaves. *)
Lemma update_task_cases task_id req tasks :
  update_task task_id req tasks =
    match find_task task_id tasks with
    | None => (Response (PError "Task not found") 404, tasks)
    | Some (i, found) =>
        match req with
        | Malformed => (Response (PError "Internal server error") 500, tasks)
        | Json data =>
            if truthy data then
              match data with
              | JObj m =>
                  (Response (PTask (patched m found)) 200,
                   <[i := patched m found]> tasks)
              | _ => (Response (PError "Internal server error") 500, tasks)
              end
            else (Response (PError "No data provided") 400, tasks)
        end
    end.
Proof.
  destruct (find_task task_id tasks) as [[i found]|] eqn:Hf.
  2:{ by apply update_task_missing. }
  destruct req as [data|]; [|by eapply update_task_malformed].
  destruct (truthy data) eqn:Ht; [|by eapply update_task_falsy].
  destruct (find_task_Some _ _ _ _ Hf) as (Hi & _ & _).
  destruct data as [| b | z | f | s | l | m].
  7:{ eapply update_task_obj; [done|]. intros ->. by rewrite truthy_obj_empty in Ht. }
  all: unfold update_task, try_except, update_task_try, mbind, M_bind;
       cbn [read_tasks]; rewrite Hf; cbn [lift get_json]; rewrite Ht;
       reflexivity.
Qed.

Lemma delete_task_cases task_id tasks :
  delete_task task_id tasks =
    match find_task task_id tasks with
    | None => (Response (PError "Task not found") 404, tasks)
    | Some _ =>
        (Response
           (PMessage ("Task " +:+ pretty task_id +:+ " deleted successfully"))
           200,
         filter (λ task, Task.id task ≠ task_id) tasks)
    end.
Proof.
  destruct (find_task task_id tasks) as [[i found]|] eqn:Hf.
  - by eapply delete_task_found.
  - by apply delete_task_missing.
Qed.

(** ** Ids stay pairwise distinct *)

Lemma patched_id m task : Task.id (patched m task) = Task.id task.
Proof. reflexivity. Qed.

Lemma patched_created_at m task :
  Task.created_at (patched m task) = Task.created_at task.
Proof. reflexivity. Qed.

Lemma update_task_ids task_id req tasks :
  Task.id <$> (update_task task_id req tasks).2 = Task.id <$> tasks.
Proof.
  rewrite update_task_cases.
  destruct (find_task task_id tasks) as [[i found]|] eqn:Hf; [|done].
  destruct req as [data|]; [|done].
  destruct (truthy data); [|done].
  destruct data; try done. cbn [snd].
  destruct (find_task_Some _ _ _ _ Hf) as (Hi & _ & _).
  rewrite list_fmap_insert, patched_id.
  apply list_insert_id. by rewrite list_lookup_fmap, Hi.
Qed.

Lemma py_max_fresh (tasks : list Task.t) task :
  task ∈ tasks → Task.id task < py_max (Task.id <$> tasks) 0 + 1.
Proof.
  intros Hin. assert (Task.id task ≤ py_max (Task.id <$> tasks) 0); [|lia].
  apply py_max_ge, list_elem_of_fmap. eauto.
Qed.

Lemma NoDup_ids_snoc (tasks : list Task.t) new_task :
  NoDup (Task.id <$> tasks) →
  (∀ task, task ∈ tasks → Task.id task < Task.id new_task) →
  NoDup (Task.id <$> (tasks ++ [new_task])).
Proof.
  intros Hnd Hlt. rewrite fmap_app. apply NoDup_app. split_and!; [done| |].
  - intros x (task & -> & Hin)%list_elem_of_fmap Hx.
    apply list_elem_of_singleton in Hx. specialize (Hlt _ Hin). simpl in Hx. lia.
  - apply NoDup_singleton.
Qed.

Lemma NoDup_ids_filter (P : Task.t → Prop) `{∀ x, Decision (P x)}
    (tasks : list Task.t) :
  NoDup (Task.id <$> tasks) → NoDup (Task.id <$> filter P tasks).
Proof.
  induction tasks as [|task tasks IH]; [done|].
  rewrite fmap_cons, NoDup_cons. intros [Hnotin Hnd].
  rewrite filter_cons. destruct (decide (P task)); [|auto].
  rewrite fmap_cons, NoDup_cons. split; [|auto].
  intros (other & Hid & Hin)%list_elem_of_fmap.
  apply list_elem_of_filter in Hin as [_ Hin].
  apply Hnotin, list_elem_of_fmap. eauto.
Qed.

Lemma handle_NoDup_ids r tasks :
  NoDup (Task.id <$> tasks) → NoDup (Task.id <$> (handle r tasks).2).
Proof.
  intros Hnd. destruct r as [| task_id | req now | task_id req | task_id | now];
    cbn [handle].
  - done.
  - unfold get_task. by destruct (find_task task_id tasks) as [[? ?]|].
  - destruct (create_task_cases req now tasks) as [[-> _]|(v & d & ->)]; [done|].
    cbn [snd]. apply NoDup_ids_snoc; [done|].
    intros task Hin. by apply py_max_fresh.
  - by rewrite update_task_ids.
  - rewrite delete_task_cases. destruct (find_task task_id tasks); [|done].
    cbn [snd]. by apply NoDup_ids_filter.
  - done.
Qed.

Lemma seed_NoDup_ids : NoDup (Task.id <$> seed).
Proof. apply (bool_decide_unpack _). by vm_compute. Qed.

Lemma reachable_NoDup_ids tasks :
  reachable tasks → NoDup (Task.id <$> tasks).
Proof.
  induction 1 as [|r tasks _ IH]; [apply seed_NoDup_ids|].
  by apply handle_NoDup_ids.
Qed.

(** * The service contract *)

(** ** POST /tasks *)

(** C1: a POST whose body is an object with a title appends one record to
    the end of the list and answers 201 with that record.  The record
    carries the given title, the given description or the empty string when
    the body has none, completed false, and an id one above the largest id
    stored (so above every stored id, and 1 on an empty list). *)
Theorem create_task_new_record tasks now (m : gmap string json) v :
  m !! "title" = Some v →
  ∃ new_task,
    create_task (Json (JObj m)) now tasks =
      (Response (PTask new_task) 201, tasks ++ [new_task]) ∧
    Task.title new_task = v ∧
    Task.description new_task = default (JStr "") (m !! "description") ∧
    Task.completed new_task = JBool false ∧
    (tasks = [] → Task.id new_task = 1) ∧
    (∀ task, task ∈ tasks → Task.id task < Task.id new_task) ∧
    (tasks ≠ [] → ∃ task, task ∈ tasks ∧ Task.id new_task = Task.id task + 1).
Proof.
  intros Hv. eexists. split; [by apply create_task_obj_title|].
  cbn [Task.title Task.description Task.completed Task.id].
  split_and!; try done.
  - by intros ->.
  - apply py_max_fresh.
  - intros Hne.
    assert (Task.id <$> tasks ≠ []) as Hids by (by destruct tasks).
    apply (py_max_in _ 0) in Hids.
    apply list_elem_of_fmap in Hids as (task & Hid & Hin).
    exists task. split; [done|]. by rewrite Hid.
Qed.

Lemma create_task_new_record_witness :
  ∃ new_task,
    create_task (Json (JObj body_test_task)) "2024-01-03T00:00:00" seed =
      (Response (PTask new_task) 201, seed ++ [new_task]) ∧
    Task.title new_task = JStr "Test Task" ∧
    Task.completed new_task = JBool false ∧
    (∀ task, task ∈ seed → Task.id task < Task.id new_task).
Proof.
  destruct (create_task_new_record seed "2024-01-03T00:00:00" body_test_task
              (JStr "Test Task"))
    as (new_task & Hrun & Ht & _ & Hc & _ & Hgt & _).
  { vm_compute. reflexivity. }
  exists new_task. split_and!; assumption.
Defined.

(** C3, as the handler implements it: a POST whose decoded body is None or
    otherwise false in Python's sense (an empty object among them), or is
    an object without a title key, is answered 400 "Title is required" and
    the list is left as it was.  A title that is present is accepted
    whatever its value. *)
Theorem create_task_title_required tasks now data :
  truthy data = false ∨ (∃ m, data = JObj m ∧ m !! "title" = None) →
  create_task (Json data) now tasks =
    (Response (PError "Title is required") 400, tasks).
Proof. apply create_task_no_title. Qed.

Lemma create_task_title_required_witness :
  create_task (Json (JObj body_no_title)) "2024-01-03T00:00:00" seed =
    (Response (PError "Title is required") 400, seed).
Proof.
  apply (create_task_title_required seed "2024-01-03T00:00:00"
           (JObj body_no_title)).
  right. exists body_no_title. split; [reflexivity|]. vm_compute. reflexivity.
Defined.

(** A POST with the body {"title": ""} is not refused: it is answered 201
    and a third task, with the empty title, is stored. *)
Lemma create_task_empty_title_accepted :
  body_empty_title !! "title" = Some (JStr "") ∧
  create_task (Json (JObj body_empty_title)) "2024-01-03T00:00:00" seed =
    (Response
       (PTask (Task.Make 3 (JStr "") (JStr "") (JBool false)
                 "2024-01-03T00:00:00Z")) 201,
     seed ++ [Task.Make 3 (JStr "") (JStr "") (JBool false)
                "2024-01-03T00:00:00Z"]) ∧
  create_task (Json (JObj body_empty_title)) "2024-01-03T00:00:00" seed ≠
    (Response (PError "Title is required") 400, seed).
Proof.
  assert (create_task (Json (JObj body_empty_title)) "2024-01-03T00:00:00" seed =
    (Response
       (PTask (Task.Make 3 (JStr "") (JStr "") (JBool false)
                 "2024-01-03T00:00:00Z")) 201,
     seed ++ [Task.Make 3 (JStr "") (JStr "") (JBool false)
                "2024-01-03T00:00:00Z"])) as Hrun.
  { vm_compute. reflexivity. }
  split_and!; [vm_compute; reflexivity|exact Hrun|].
  rewrite Hrun. discriminate.
Qed.

(** ** GET /tasks *)

(** C8: GET /tasks leaves the list as it is, so two calls in a row, and
    any number of calls in a row, give the same answer each time: the tasks
    in list order, and their number as count. *)
Theorem get_tasks_repeatable tasks n :
  serve [GET_tasks; GET_tasks] tasks =
    ([Response (PTasks tasks (length tasks)) 200;
      Response (PTasks tasks (length tasks)) 200],
     tasks) ∧
  serve (replicate n GET_tasks) tasks =
    (replicate n (Response (PTasks tasks (length tasks)) 200), tasks).
Proof.
  split; [reflexivity|].
  induction n as [|n IH]; [reflexivity|].
  cbn [replicate serve handle get_tasks]. by rewrite IH.
Qed.

(** ** PUT /tasks/<id> *)

(** C9: the search by id comes first in PUT.  When the id is not stored
    the answer is 404 "Task not found" and the list is unchanged, whatever
    the body is, a body that cannot be decoded included; hence an answer
    400 "No data provided" only occurs for a stored id. *)
Theorem update_task_unknown_id tasks task_id req :
  (task_id ∉ (Task.id <$> tasks) →
     update_task task_id req tasks =
       (Response (PError "Task not found") 404, tasks)) ∧
  ((update_task task_id req tasks).1 =
     Response (PError "No data provided") 400 →
   task_id ∈ (Task.id <$> tasks)).
Proof.
  assert (task_id ∉ (Task.id <$> tasks) →
          update_task task_id req tasks =
            (Response (PError "Task not found") 404, tasks)) as Hmiss.
  { intros Hnot. by apply update_task_missing, find_task_None. }
  split; [exact Hmiss|].
  intros Hresp.
  destruct (decide (task_id ∈ (Task.id <$> tasks))) as [|Hnot]; [done|].
  rewrite (Hmiss Hnot) in Hresp. discriminate.
Qed.

Lemma update_task_unknown_id_witness :
  update_task 999 Malformed seed =
    (Response (PError "Task not found") 404, seed) ∧
  1 ∈ (Task.id <$> seed).
Proof.
  split.
  - apply (update_task_unknown_id seed 999 Malformed).
    apply (bool_decide_unpack _). vm_compute. exact I.
  - apply (update_task_unknown_id seed 1 (Json JNull)).
    vm_compute. reflexivity.
Defined.

(** C10: a PUT on a stored id whose body decodes to the empty object is
    answered 400 "No data provided"; no task is touched. *)
Theorem update_task_empty_object tasks task_id :
  task_id ∈ (Task.id <$> tasks) →
  update_task task_id (Json (JObj ∅)) tasks =
    (Response (PError "No data provided") 400, tasks).
Proof.
  intros [[i found] Hf]%find_task_is_Some.
  by eapply update_task_falsy.
Qed.

Lemma update_task_empty_object_witness :
  update_task 1 (Json (JObj ∅)) seed =
    (Response (PError "No data provided") 400, seed).
Proof.
  apply (update_task_empty_object seed 1).
  apply (bool_decide_unpack _). vm_compute. exact I.
Defined.

(** C4: a PUT on a stored id whose body is an object changes one list
    cell only, the first one with that id.  There title, description and
    completed take the value the body gives them and keep their value when
    the body has no such key; id and created_at stay as they were whatever
    keys the body has.  Every other cell and the length of the list are
    unchanged, and a non-empty body is answered 200 with the new record. *)
Theorem update_task_frame tasks task_id (m : gmap string json) :
  task_id ∈ (Task.id <$> tasks) →
  ∃ i old new,
    tasks !! i = Some old ∧
    Task.id old = task_id ∧
    (∀ j other,
       tasks !! j = Some other → (j < i)%nat → Task.id other ≠ task_id) ∧
    (update_task task_id (Json (JObj m)) tasks).2 !! i = Some new ∧
    Task.title new = default (Task.title old) (m !! "title") ∧
    Task.description new =
      default (Task.description old) (m !! "description") ∧
    Task.completed new = default (Task.completed old) (m !! "completed") ∧
    Task.id new = Task.id old ∧
    Task.created_at new = Task.created_at old ∧
    length (update_task task_id (Json (JObj m)) tasks).2 = length tasks ∧
    (∀ j, j ≠ i →
       (update_task task_id (Json (JObj m)) tasks).2 !! j = tasks !! j) ∧
    (m ≠ ∅ →
       (update_task task_id (Json (JObj m)) tasks).1 =
         Response (PTask new) 200).
Proof.
  intros [[i old] Hf]%find_task_is_Some.
  destruct (find_task_Some _ _ _ _ Hf) as (Hi & Hid & Hfirst).
  exists i, old, (patched m old).
  pose proof (lookup_lt_Some _ _ _ Hi) as Hlen.
  destruct (decide (m = ∅)) as [->|Hm].
  - rewrite (update_task_falsy _ _ _ _ _ Hf truthy_obj_empty). cbn [fst snd].
    assert (patched ∅ old = old) as -> by (by destruct old).
    split_and!; try done.
  - rewrite (update_task_obj _ _ _ _ _ Hf Hm). cbn [fst snd].
    split_and!; try done.
    + by apply list_lookup_insert_eq.
    + apply length_insert.
    + intros j Hj. by apply list_lookup_insert_ne.
Qed.

Lemma update_task_frame_witness :
  ∃ i old new,
    seed !! i = Some old ∧
    Task.id old = 1 ∧
    (update_task 1 (Json (JObj body_update)) seed).2 !! i = Some new ∧
    Task.title new = default (Task.title old) (body_update !! "title") ∧
    Task.id new = Task.id old ∧
    Task.created_at new = Task.created_at old ∧
    (∀ j, j ≠ i →
       (update_task 1 (Json (JObj body_update)) seed).2 !! j = seed !! j).
Proof.
  destruct (update_task_frame seed 1 body_update)
    as (i & old & new & Hi & Hid & _ & Hnew & Ht & _ & _ & Hsame & Hat & _
        & Hrest & _).
  { apply (bool_decide_unpack _). vm_compute. exact I. }
  exists i, old, new. split_and!; assumption.
Defined.

(** ** DELETE /tasks/<id> *)

Lemma filter_keeps_all (P : Task.t → Prop) `{∀ x, Decision (P x)}
    (tasks : list Task.t) :
  (∀ task, task ∈ tasks → P task) → filter P tasks = tasks.
Proof.
  induction tasks as [|task tasks IH]; [done|]. intros Hall.
  rewrite filter_cons_True by (apply Hall, elem_of_cons; by left).
  f_equal. apply IH. intros other Hin. apply Hall, elem_of_cons. by right.
Qed.

Lemma NoDup_ids_split (tasks : list Task.t) task_id :
  NoDup (Task.id <$> tasks) →
  task_id ∈ (Task.id <$> tasks) →
  ∃ before task after,
    tasks = before ++ task :: after ∧
    Task.id task = task_id ∧
    (task_id ∉ (Task.id <$> (before ++ after))) ∧
    before ++ after = filter (λ other, Task.id other ≠ task_id) tasks.
Proof.
  intros Hnd (task & Hid & Hin)%list_elem_of_fmap.
  apply list_elem_of_split in Hin as (before & after & ->).
  exists before, task, after.
  rewrite fmap_app, fmap_cons, <- Hid in Hnd.
  apply NoDup_app in Hnd as (_ & Hba & Ha).
  apply NoDup_cons in Ha as [Hafter _].
  assert (task_id ∉ (Task.id <$> before)) as Hbefore.
  { intros Hb. subst task_id. apply (Hba _ Hb), elem_of_cons. by left. }
  assert (task_id ∉ (Task.id <$> after)) as Hafter' by (by subst task_id).
  split_and!; [done|done| |].
  - rewrite fmap_app. intros [?|?]%elem_of_app; tauto.
  - symmetry.
    rewrite filter_app, filter_cons_False by (intros Hne; by apply Hne).
    rewrite !filter_keeps_all; [done| |].
    + intros other Ho Heq. apply Hafter', list_elem_of_fmap. eauto.
    + intros other Ho Heq. apply Hbefore, list_elem_of_fmap. eauto.
Qed.

(** C5: on a list the process can hold, DELETE of a stored id answers 200
    and takes exactly the task with that id out of the list, the others
    keeping their order; a GET of the id and a second DELETE right after
    are both answered 404 "Task not found".  DELETE of an id that is not
    stored is answered 404 and leaves the list as it was. *)
Theorem delete_task_removes tasks task_id :
  reachable tasks →
  (task_id ∈ (Task.id <$> tasks) →
     ∃ before task after,
       tasks = before ++ task :: after ∧
       Task.id task = task_id ∧
       delete_task task_id tasks =
         (Response
            (PMessage ("Task " +:+ pretty task_id +:+ " deleted successfully"))
            200,
          before ++ after) ∧
       get_task task_id (before ++ after) =
         (Response (PError "Task not found") 404, before ++ after) ∧
       delete_task task_id (before ++ after) =
         (Response (PError "Task not found") 404, before ++ after)) ∧
  (task_id ∉ (Task.id <$> tasks) →
     delete_task task_id tasks =
       (Response (PError "Task not found") 404, tasks)).
Proof.
  intros Hnd%reachable_NoDup_ids. split.
  - intros Hin.
    destruct (NoDup_ids_split _ _ Hnd Hin)
      as (before & task & after & Htasks & Hid & Hgone & Hfilter).
    exists before, task, after.
    apply find_task_is_Some in Hin as [[i found] Hf].
    apply find_task_None in Hgone.
    split_and!; [done|done| | |].
    + by rewrite (delete_task_found _ _ _ _ Hf), <- Hfilter.
    + unfold get_task. by rewrite Hgone.
    + by apply delete_task_missing.
  - intros Hnot. by apply delete_task_missing, find_task_None.
Qed.

Lemma delete_task_removes_witness :
  (∃ before task after,
     seed = before ++ task :: after ∧
     Task.id task = 2 ∧
     delete_task 2 seed =
       (Response (PMessage ("Task " +:+ pretty 2 +:+ " deleted successfully"))
          200,
        before ++ after) ∧
     get_task 2 (before ++ after) =
       (Response (PError "Task not found") 404, before ++ after) ∧
     delete_task 2 (before ++ after) =
       (Response (PError "Task not found") 404, before ++ after)) ∧
  delete_task 999 seed = (Response (PError "Task not found") 404, seed).
Proof.
  split.
  - apply (delete_task_removes seed 2 reachable_seed).
    apply (bool_decide_unpack _). vm_compute. exact I.
  - apply (delete_task_removes seed 999 reachable_seed).
    apply (bool_decide_unpack _). vm_compute. exact I.
Defined.

(** ** GET /metrics *)

Lemma length_filter_count (p : Task.t → bool) (tasks : list Task.t) :
  length (filter (λ task, p task = true) tasks) = count_where p tasks.
Proof.
  induction tasks as [|task tasks IH]; [done|].
  rewrite filter_cons. cbn [count_where].
  destruct (p task) eqn:Hp.
  - rewrite decide_True by done. cbn [length]. by rewrite IH.
  - rewrite decide_False by done. by rewrite IH.
Qed.

Lemma count_where_split (p : Task.t → bool) (tasks : list Task.t) :
  (count_where p tasks + count_where (λ task, negb (p task)) tasks)%nat
  = length tasks.
Proof.
  induction tasks as [|task tasks IH]; [done|].
  cbn [count_where length]. destruct (p task); cbn [negb]; lia.
Qed.

(** On a JSON boolean the truth test is the boolean itself. *)
Lemma truthy_bool b : truthy (JBool b) = b.
Proof. reflexivity. Qed.

(** Hence, while every completed field is a JSON boolean, the tasks counted
    as completed are those whose field is [true]. *)
Lemma count_completed_booleans (tasks : list Task.t) :
  (∀ task, task ∈ tasks → ∃ b, Task.completed task = JBool b) →
  count_where (λ task, truthy (Task.completed task)) tasks =
    count_where (λ task, is_json_true (Task.completed task)) tasks.
Proof.
  induction tasks as [|task tasks IH]; [done|]. intros Hall.
  cbn [count_where]. rewrite IH.
  - destruct (Hall task) as [b ->]; [apply elem_of_cons; by left|].
    by destruct b.
  - intros other Hin. apply Hall, elem_of_cons. by right.
Qed.

(** Python's truth test, as the handlers apply it, rejects exactly the
    values listed in [falsy]. *)
Lemma truthy_falsy (v : json) : truthy v = false ↔ falsy v.
Proof.
  split.
  - destruct v as [| [|] | z | f | s | l | m]; cbn [truthy].
    + intros _. constructor.
    + discriminate.
    + intros _. constructor.
    + intros Hz%negb_false_iff%Z.eqb_eq. subst z. constructor.
    + destruct f; try discriminate. intros _. constructor.
    + intros Hs%negb_false_iff%String.eqb_eq. subst s. constructor.
    + intros Hl%negb_false_iff%bool_decide_eq_true. subst l. constructor.
    + intros Hm%negb_false_iff%bool_decide_eq_true. subst m. constructor.
  - intros []; reflexivity.
Qed.

Lemma count_where_ext (p q : Task.t → bool) (tasks : list Task.t) :
  (∀ task, task ∈ tasks → p task = q task) →
  count_where p tasks = count_where q tasks.
Proof.
  induction tasks as [|task tasks IH]; [done|]. intros Hpq.
  cbn [count_where]. rewrite IH.
  - rewrite (Hpq task); [done|]. apply elem_of_cons. by left.
  - intros other Hin. apply Hpq, elem_of_cons. by right.
Qed.

Lemma handle_keeps_booleans r tasks :
  sets_boolean r →
  Forall boolean_completed tasks →
  Forall boolean_completed (handle r tasks).2.
Proof.
  intros Hr Hall.
  destruct r as [| task_id | req now | task_id req | task_id | now];
    cbn [handle].
  - done.
  - unfold get_task. by destruct (find_task task_id tasks) as [[? ?]|].
  - destruct (create_task_cases req now tasks) as [[-> _]|(v & d & ->)];
      [done|].
    cbn [snd]. apply Forall_app. split; [done|].
    apply Forall_singleton. by exists false.
  - rewrite update_task_cases.
    destruct (find_task task_id tasks) as [[i found]|] eqn:Hfind; [|done].
    destruct req as [data|]; [|done].
    destruct (truthy data); [|done].
    destruct data as [| b | z | f | s | l | m]; try done.
    cbn [snd]. apply Forall_insert; [done|].
    apply find_task_Some in Hfind as (Hi & _ & _).
    unfold boolean_completed, patched. cbn.
    destruct (m !! "completed") as [v|] eqn:Hv; cbn.
    + by apply Hr.
    + by eapply (proj1 (Forall_lookup _ _) Hall).
  - rewrite delete_task_cases.
    destruct (find_task task_id tasks); [|done].
    cbn [snd]. apply Forall_forall. intros task [_ Hin]%list_elem_of_filter.
    by eapply (proj1 (Forall_forall _ _) Hall).
  - done.
Qed.

(** The lists reached with boolean updates are lists the process can hold,
    and on them every completed field is a JSON boolean. *)
Lemma reachable_booleans_completed tasks :
  reachable_booleans tasks →
  reachable tasks ∧ Forall boolean_completed tasks.
Proof.
  induction 1 as [|r tasks _ [IHr IHb] Hr].
  - split; [constructor|]. repeat constructor; by exists false.
  - split; [by constructor|by apply handle_keeps_booleans].
Qed.

(** C2, as the handler computes it: on every list, those the process can
    hold included, GET /metrics reports the length of the list as
    total_tasks, the number of tasks whose completed field passes
    Python's truth test as completed_tasks, the number of tasks whose
    completed field fails it as pending_tasks, and the two add up to the
    total.  On the lists reached without a PUT that sets completed to
    something other than a JSON boolean, completed_tasks is the number of
    tasks whose completed field is true and pending_tasks the number of
    the others. *)
Theorem metrics_counts now tasks :
  ∃ total n_completed n_pending,
    metrics now tasks =
      (Response (PMetrics total n_completed n_pending (now +:+ "Z")) 200,
       tasks) ∧
    total = length tasks ∧
    n_completed =
      count_where (λ task, bool_decide (¬ falsy (Task.completed task)))
        tasks ∧
    n_pending =
      count_where (λ task, bool_decide (falsy (Task.completed task)))
        tasks ∧
    total = (n_completed + n_pending)%nat ∧
    (reachable_booleans tasks →
     n_completed =
       count_where (λ task, is_json_true (Task.completed task)) tasks ∧
     n_pending =
       count_where (λ task, negb (is_json_true (Task.completed task)))
         tasks).
Proof.
  eexists _, _, _. split; [reflexivity|].
  rewrite (length_filter_count (λ task, truthy (Task.completed task))).
  rewrite (length_filter_count (λ task, negb (truthy (Task.completed task)))).
  split_and!.
  - done.
  - apply count_where_ext. intros task _.
    destruct (truthy (Task.completed task)) eqn:Ht.
    + symmetry. apply bool_decide_eq_true. intros Hf%truthy_falsy.
      congruence.
    + symmetry. apply bool_decide_eq_false. intros Hn. apply Hn.
      by apply truthy_falsy.
  - apply count_where_ext. intros task _.
    destruct (truthy (Task.completed task)) eqn:Ht; cbn [negb].
    + symmetry. apply bool_decide_eq_false. intros Hf%truthy_falsy.
      congruence.
    + symmetry. apply bool_decide_eq_true. by apply truthy_falsy.
  - symmetry. apply count_where_split.
  - intros [_ Hall]%reachable_booleans_completed.
    split; apply count_where_ext; intros task Hin;
      destruct (proj1 (Forall_forall _ _) Hall task Hin) as [[|] ->];
      reflexivity.
Qed.

Lemma metrics_counts_witness :
  ∃ total n_completed n_pending,
    metrics "2024-01-03T00:00:00"
      (handle (PUT_task 1 (Json (JObj body_update))) seed).2 =
      (Response
         (PMetrics total n_completed n_pending "2024-01-03T00:00:00Z") 200,
       (handle (PUT_task 1 (Json (JObj body_update))) seed).2) ∧
    n_completed =
      count_where (λ task, is_json_true (Task.completed task))
        (handle (PUT_task 1 (Json (JObj body_update))) seed).2.
Proof.
  destruct (metrics_counts "2024-01-03T00:00:00"
              (handle (PUT_task 1 (Json (JObj body_update))) seed).2)
    as (total & n_completed & n_pending & Hrun & _ & _ & _ & _ & Hbool).
  exists total, n_completed, n_pending. split; [exact Hrun|].
  apply Hbool. apply reachable_booleans_handle.
  - apply reachable_booleans_seed.
  - intros v Hv. exists true.
    assert (body_update !! "completed" = Some (JBool true)) as Hlook
      by reflexivity.
    rewrite Hlook in Hv. injection Hv as <-. reflexivity.
Defined.

(** The count is by truth value and not by equality with true: after
    PUT /tasks/1 with the body {"completed": "no"} on the list at
    start-up, no task has completed equal to true and /metrics reports
    one completed task. *)
Lemma metrics_counts_non_boolean :
  reachable
    (handle (PUT_task 1 (Json (JObj {["completed" := JStr "no"]}))) seed).2 ∧
  (metrics "2024-01-03T00:00:00"
     (handle (PUT_task 1 (Json (JObj {["completed" := JStr "no"]})))
        seed).2).1 =
    Response (PMetrics 2 1 1 "2024-01-03T00:00:00Z") 200 ∧
  count_where (λ task, is_json_true (Task.completed task))
    (handle (PUT_task 1 (Json (JObj {["completed" := JStr "no"]}))) seed).2
    = 0%nat.
Proof.
  split; [apply reachable_handle, reachable_seed|].
  split; vm_compute; reflexivity.
Qed.

(** ** Ids over the life of the process *)

(** The id of a deleted task is handed out again: after POST, DELETE of
    the new task and another POST, both created tasks have id 3. *)
Lemma deleted_id_assigned_again :
  serve [POST_tasks (Json (JObj body_test_task)) "2024-01-03T00:00:00";
         DELETE_task 3;
         POST_tasks (Json (JObj body_update)) "2024-01-04T00:00:00"] seed =
    ([Response
        (PTask (Task.Make 3 (JStr "Test Task") (JStr "This is a test task")
                  (JBool false) "2024-01-03T00:00:00Z")) 201;
      Response (PMessage "Task 3 deleted successfully") 200;
      Response
        (PTask (Task.Make 3 (JStr "Updated Task") (JStr "")
                  (JBool false) "2024-01-04T00:00:00Z")) 201],
     seed ++ [Task.Make 3 (JStr "Updated Task") (JStr "")
                (JBool false) "2024-01-04T00:00:00Z"]).
Proof. vm_compute. reflexivity. Qed.

(** C6, as the handlers implement it: on every list the process can hold
    the stored ids are pairwise distinct, and a POST that creates a task
    appends it with an id greater than every id stored at that moment, so
    the ids stay pairwise distinct.  Nothing remembers the ids of deleted
    tasks. *)
Theorem created_id_fresh tasks req now new_task tasks' :
  reachable tasks →
  create_task req now tasks = (Response (PTask new_task) 201, tasks') →
  NoDup (Task.id <$> tasks) ∧
  tasks' = tasks ++ [new_task] ∧
  (∀ task, task ∈ tasks → Task.id task < Task.id new_task) ∧
  NoDup (Task.id <$> tasks').
Proof.
  intros Hnd%reachable_NoDup_ids Hrun.
  destruct (create_task_cases req now tasks) as [[_ Hst]|(v & d & Heq)].
  { rewrite Hrun in Hst. cbn in Hst. destruct Hst; discriminate. }
  rewrite Heq in Hrun. cbn zeta in Hrun.
  injection Hrun as Htask Htasks. subst new_task tasks'.
  assert (∀ task, task ∈ tasks →
            Task.id task < py_max (Task.id <$> tasks) 0 + 1) as Hlt
    by (intros ?; apply py_max_fresh).
  split_and!; [done|done|exact Hlt|].
  by apply NoDup_ids_snoc.
Qed.

Lemma created_id_fresh_witness :
  NoDup (Task.id <$> seed) ∧
  (∀ task, task ∈ seed → Task.id task < 3) ∧
  NoDup (Task.id <$> (seed ++
           [Task.Make 3 (JStr "Test Task") (JStr "This is a test task")
              (JBool false) "2024-01-03T00:00:00Z"])).
Proof.
  destruct (created_id_fresh seed (Json (JObj body_test_task))
              "2024-01-03T00:00:00"
              (Task.Make 3 (JStr "Test Task") (JStr "This is a test task")
                 (JBool false) "2024-01-03T00:00:00Z")
              (seed ++
               [Task.Make 3 (JStr "Test Task") (JStr "This is a test task")
                  (JBool false) "2024-01-03T00:00:00Z"])
              reachable_seed)
    as (H1 & _ & H3 & H4).
  { vm_compute. reflexivity. }
  split_and!; [exact H1|exact H3|exact H4].
Defined.

(** ** Bodies that cannot be decoded *)

(** C7 does not hold of the handlers: a POST whose body cannot be
    decoded, and a PUT with such a body on a stored id, are answered 500
    "Internal server error" where the claim asks for 400.  [get_json()]
    raises inside the handler's [try] block and the handler's
    [except Exception] answers 500.  The list is left as it was. *)
Theorem malformed_body_internal_error now tasks :
  create_task Malformed now tasks =
    (Response (PError "Internal server error") 500, tasks) ∧
  (∀ task_id,
     task_id ∈ (Task.id <$> tasks) →
     update_task task_id Malformed tasks =
       (Response (PError "Internal server error") 500, tasks)).
Proof.
  split; [apply create_task_malformed|].
  intros task_id [[i found] Hfind]%find_task_is_Some.
  by eapply update_task_malformed.
Qed.

Lemma malformed_body_internal_error_witness :
  create_task Malformed "2024-01-03T00:00:00" seed =
    (Response (PError "Internal server error") 500, seed) ∧
  update_task 1 Malformed seed =
    (Response (PError "Internal server error") 500, seed).
Proof.
  destruct (malformed_body_internal_error "2024-01-03T00:00:00" seed)
    as [Hpost Hput].
  split; [exact Hpost|]. apply Hput.
  apply (bool_decide_unpack _). vm_compute. exact I.
Defined.

(** * Further properties of the handlers *)

(** ** Substring search, as [in] does it on a str *)

Lemma prefix_app (needle hay : string) :
  String.prefix needle hay = true ↔ ∃ post, hay = needle +:+ post.
Proof.
  revert hay. induction needle as [|c needle IH]; intros hay.
  - split; [intros _; by exists hay|]. intros _. by destruct hay.
  - destruct hay as [|d hay]; cbn [String.prefix].
    + split; [done|]. intros [post Hpost]. discriminate.
    + destruct (Ascii.ascii_dec c d) as [->|Hne].
      * rewrite IH. split; intros [post Hpost]; exists post.
        -- cbn. by rewrite Hpost.
        -- cbn in Hpost. by injection Hpost.
      * split; [done|]. intros [post Hpost]. cbn in Hpost.
        injection Hpost as Hc _. by destruct Hne.
Qed.

Lemma str_contains_app (needle hay : string) :
  str_contains needle hay = true ↔
  ∃ pre post, hay = pre +:+ needle +:+ post.
Proof.
  induction hay as [|d hay IH]; cbn [str_contains].
  - rewrite orb_false_r, prefix_app. split.
    + intros [post Hpost]. by exists "", post.
    + intros (pre & post & Heq). destruct pre as [|? ?]; [|discriminate].
      by exists post.
  - rewrite orb_true_iff, prefix_app, IH. split.
    + intros [[post Hpost]|(pre & post & Hpost)].
      * by exists "", post.
      * exists (String d pre), post. cbn. by rewrite Hpost.
    + intros (pre & post & Heq). destruct pre as [|c pre].
      * left. by exists post.
      * right. exists pre, post. cbn in Heq. by injection Heq.
Qed.

(** ** POST /tasks: which bodies create a task *)

Lemma create_task_shape req now tasks :
  (∃ m v, req = Json (JObj m) ∧ m !! "title" = Some v) ∨
  ((create_task req now tasks).2 = tasks ∧
   (status (create_task req now tasks).1 = 400 ∨
    status (create_task req now tasks).1 = 500)).
Proof.
  destruct req as [data|]; [|right; rewrite create_task_malformed; auto].
  destruct (truthy data) eqn:Ht.
  2:{ right. rewrite create_task_no_title by auto. auto. }
  destruct data as [| b | z | f | s | l | m].
  7:{ destruct (m !! "title") as [v|] eqn:Hv; [left; eauto|].
      right. rewrite create_task_no_title by eauto. auto. }
  all: right; unfold create_task, try_except, create_task_try, mbind, M_bind,
         lift; cbn [get_json]; rewrite Ht; cbn [negb py_in].
  all: try (split; [reflexivity | right; reflexivity]).
  - destruct (str_contains "title" s); cbn; auto.
  - destruct (existsb (is_str "title") l); cbn; auto.
Qed.

(** X1: a POST is answered 201 exactly when its body decodes to an object
    that has a title key.  Every other POST is answered 400 or 500 and
    leaves the list as it was. *)
Theorem create_task_status req now tasks :
  (status (create_task req now tasks).1 = 201 ↔
   ∃ m v, req = Json (JObj m) ∧ m !! "title" = Some v) ∧
  (status (create_task req now tasks).1 ≠ 201 →
   (create_task req now tasks).2 = tasks ∧
   (status (create_task req now tasks).1 = 400 ∨
    status (create_task req now tasks).1 = 500)).
Proof.
  split.
  - split.
    + intros H201. destruct (create_task_shape req now tasks)
        as [Hobj|[_ [H|H]]]; [done|rewrite H in H201; lia..].
    + intros (m & v & -> & Hv). by rewrite (create_task_obj_title _ _ _ _ Hv).
  - intros Hne. destruct (create_task_shape req now tasks)
      as [(m & v & -> & Hv)|Hrej]; [|done].
    by rewrite (create_task_obj_title _ _ _ _ Hv) in Hne.
Qed.

Lemma create_task_status_witness :
  (create_task (Json (JArr [JStr "title"])) "2024-01-03T00:00:00" seed).2 = seed.
Proof.
  apply (create_task_status (Json (JArr [JStr "title"])) "2024-01-03T00:00:00"
           seed).
  vm_compute. discriminate.
Defined.

(** X2: bodies that are not objects.  A non-zero number and [true] are
    answered 500; a JSON string is answered 500 when it contains the text
    title and 400 otherwise; an array is answered 500 when one of its
    elements is the string "title" and 400 otherwise.  None of them changes
    the list. *)
Theorem create_task_non_object now tasks :
  (∀ z, z ≠ 0 →
     create_task (Json (JInt z)) now tasks =
       (Response (PError "Internal server error") 500, tasks)) ∧
  create_task (Json (JBool true)) now tasks =
    (Response (PError "Internal server error") 500, tasks) ∧
  (∀ s,
     (∃ pre post, s = pre +:+ "title" +:+ post) →
     create_task (Json (JStr s)) now tasks =
       (Response (PError "Internal server error") 500, tasks)) ∧
  (∀ s,
     ¬ (∃ pre post, s = pre +:+ "title" +:+ post) →
     create_task (Json (JStr s)) now tasks =
       (Response (PError "Title is required") 400, tasks)) ∧
  (∀ l,
     JStr "title" ∈ l →
     create_task (Json (JArr l)) now tasks =
       (Response (PError "Internal server error") 500, tasks)) ∧
  (∀ l,
     JStr "title" ∉ l →
     create_task (Json (JArr l)) now tasks =
       (Response (PError "Title is required") 400, tasks)).
Proof.
  assert (∀ data,
            create_task (Json data) now tasks =
              try_except (create_task_try (Json data) now) tasks) as Hdef
    by done.
  split_and!.
  - intros z Hz. rewrite Hdef.
    unfold try_except, create_task_try, mbind, M_bind, lift. cbn [get_json truthy].
    by rewrite (proj2 (Z.eqb_neq z 0) Hz).
  - reflexivity.
  - intros s Hs. apply str_contains_app in Hs. rewrite Hdef.
    assert (truthy (JStr s) = true) as Ht.
    { cbn. destruct s; [discriminate|done]. }
    unfold try_except, create_task_try, mbind, M_bind, lift. cbn [get_json].
    rewrite Ht. cbn [negb py_in]. by rewrite Hs.
  - intros s Hs. rewrite <- str_contains_app in Hs.
    apply not_true_is_false in Hs. rewrite Hdef.
    unfold try_except, create_task_try, mbind, M_bind, lift. cbn [get_json].
    destruct (truthy (JStr s)); cbn [negb py_in]; [|done]. by rewrite Hs.
  - intros l Hl. rewrite Hdef.
    assert (existsb (is_str "title") l = true) as Hex.
    { apply existsb_exists. exists (JStr "title"). split; [|done].
      by apply list_elem_of_In. }
    assert (truthy (JArr l) = true) as Ht.
    { cbn. apply negb_true_iff, bool_decide_eq_false. intros ->.
      by apply elem_of_nil in Hl. }
    unfold try_except, create_task_try, mbind, M_bind, lift. cbn [get_json].
    rewrite Ht. cbn [negb py_in]. by rewrite Hex.
  - intros l Hl. rewrite Hdef.
    assert (existsb (is_str "title") l = false) as Hex.
    { apply not_true_is_false. intros (v & Hin & Hv)%existsb_exists.
      destruct v; try done. cbn in Hv. apply String.eqb_eq in Hv as ->.
      by apply Hl, list_elem_of_In. }
    unfold try_except, create_task_try, mbind, M_bind, lift. cbn [get_json].
    destruct (truthy (JArr l)); cbn [negb py_in]; [|done]. by rewrite Hex.
Qed.

Lemma create_task_non_object_witness :
  create_task (Json (JInt 5)) "2024-01-03T00:00:00" seed =
    (Response (PError "Internal server error") 500, seed) ∧
  create_task (Json (JStr "subtitles")) "2024-01-03T00:00:00" seed =
    (Response (PError "Internal server error") 500, seed) ∧
  create_task (Json (JArr [JInt 1; JStr "title"])) "2024-01-03T00:00:00" seed =
    (Response (PError "Internal server error") 500, seed).
Proof.
  destruct (create_task_non_object "2024-01-03T00:00:00" seed)
    as (Hint & _ & Hstr & _ & Harr & _).
  split_and!.
  - apply Hint. discriminate.
  - apply Hstr. exists "sub", "s". reflexivity.
  - apply Harr. apply elem_of_cons. right. apply elem_of_cons. left.
    reflexivity.
Defined.

(** ** GET /tasks/<id> and what the other handlers leave of it *)

Lemma find_task_cons task_id task tasks :
  find_task task_id (task :: tasks) =
    if decide (Task.id task = task_id) then Some (0%nat, task)
    else prod_map S id <$> find_task task_id tasks.
Proof. reflexivity. Qed.

Lemma find_task_snoc_old task_id tasks new_task :
  task_id ∈ (Task.id <$> tasks) →
  find_task task_id (tasks ++ [new_task]) = find_task task_id tasks.
Proof.
  intros [[i found] Hf]%find_task_is_Some. rewrite Hf.
  by apply list_find_app_l.
Qed.

Lemma find_task_snoc_new tasks new_task :
  Task.id new_task ∉ (Task.id <$> tasks) →
  find_task (Task.id new_task) (tasks ++ [new_task]) =
    Some (length tasks, new_task).
Proof.
  intros Hnot%find_task_None. unfold find_task in *.
  rewrite list_find_app_r by done. cbn.
  rewrite decide_True by done. reflexivity.
Qed.

Lemma find_task_insert_other j tasks i old new :
  tasks !! i = Some old →
  Task.id old ≠ j → Task.id new ≠ j →
  find_task j (<[i := new]> tasks) = find_task j tasks.
Proof.
  revert i. induction tasks as [|task tasks IH]; intros i Hi Hold Hnew;
    [done|].
  destruct i as [|i]; cbn in Hi.
  - injection Hi as ->. cbn [insert list_insert].
    rewrite !find_task_cons, !decide_False by done. reflexivity.
  - change (<[S i:=new]> (task :: tasks)) with (task :: <[i:=new]> tasks).
    rewrite !find_task_cons. by rewrite (IH i).
Qed.

Lemma snd_find_shift (o : option (nat * Task.t)) :
  snd <$> (prod_map S id <$> o) = snd <$> o.
Proof. by destruct o as [[? ?]|]. Qed.

Lemma find_task_filter_other j a tasks :
  a ≠ j →
  snd <$> find_task j (filter (λ task, Task.id task ≠ a) tasks) =
  snd <$> find_task j tasks.
Proof.
  intros Hne. induction tasks as [|task tasks IH]; [done|].
  rewrite filter_cons. destruct (decide (Task.id task ≠ a)) as [Hk|Hk].
  - rewrite !find_task_cons. destruct (decide (Task.id task = j)); [done|].
    by rewrite !snd_find_shift.
  - rewrite find_task_cons, decide_False.
    + by rewrite snd_find_shift.
    + intros Heq. apply Hk. intros Ha. apply Hne. by rewrite <- Ha, Heq.
Qed.

Lemma get_task_by_find j tasks :
  (get_task j tasks).1 =
    match snd <$> find_task j tasks with
    | Some task => Response (PTask task) 200
    | None => Response (PError "Task not found") 404
    end.
Proof. unfold get_task. by destruct (find_task j tasks) as [[? ?]|]. Qed.

(** X3: GET /tasks/<id> never changes the list; it is answered 200 exactly
    when a task with the id is stored, and then with a stored task that
    carries the id. *)
Theorem get_task_stored tasks task_id :
  (get_task task_id tasks).2 = tasks ∧
  (status (get_task task_id tasks).1 = 200 ↔
   task_id ∈ (Task.id <$> tasks)) ∧
  (task_id ∈ (Task.id <$> tasks) →
   ∃ task,
     task ∈ tasks ∧ Task.id task = task_id ∧
     get_task task_id tasks = (Response (PTask task) 200, tasks)) ∧
  (task_id ∉ (Task.id <$> tasks) →
   get_task task_id tasks = (Response (PError "Task not found") 404, tasks)).
Proof.
  unfold get_task.
  destruct (find_task task_id tasks) as [[i found]|] eqn:Hf.
  - destruct (find_task_Some _ _ _ _ Hf) as (Hi & Hid & _).
    assert (task_id ∈ (Task.id <$> tasks)) as Hin.
    { apply list_elem_of_fmap. exists found. split; [done|].
      by eapply list_elem_of_lookup_2. }
    split_and!; [done|done| |done].
    intros _. exists found. split_and!; [|done..].
    by eapply list_elem_of_lookup_2.
  - pose proof (proj1 (find_task_None _ _) Hf) as Hnot.
    split_and!; [done| |done|done].
    cbn. split; [lia|done].
Qed.

Lemma get_task_stored_witness :
  ∃ task,
    task ∈ seed ∧ Task.id task = 2 ∧
    get_task 2 seed = (Response (PTask task) 200, seed).
Proof.
  apply (get_task_stored seed 2).
  apply (bool_decide_unpack _). vm_compute. exact I.
Defined.

(** X4: a task that POST has just created is what GET of its id returns. *)
Theorem create_then_get tasks now (m : gmap string json) v :
  m !! "title" = Some v →
  ∃ new_task tasks',
    create_task (Json (JObj m)) now tasks =
      (Response (PTask new_task) 201, tasks') ∧
    get_task (Task.id new_task) tasks' =
      (Response (PTask new_task) 200, tasks').
Proof.
  intros Hv. rewrite (create_task_obj_title _ _ _ _ Hv). cbn zeta.
  eexists _, _. split; [reflexivity|].
  unfold get_task. rewrite find_task_snoc_new; [done|].
  cbn [Task.id]. intros (task & Hid & Hin)%list_elem_of_fmap.
  pose proof (py_max_fresh _ _ Hin). lia.
Qed.

Lemma create_then_get_witness :
  ∃ new_task tasks',
    create_task (Json (JObj body_test_task)) "2024-01-03T00:00:00" seed =
      (Response (PTask new_task) 201, tasks') ∧
    get_task (Task.id new_task) tasks' =
      (Response (PTask new_task) 200, tasks').
Proof.
  apply (create_then_get seed "2024-01-03T00:00:00" body_test_task
           (JStr "Test Task")).
  vm_compute. reflexivity.
Defined.

(** X5: the record a PUT answers with is what GET of the id returns right
    after. *)
Theorem update_then_get tasks task_id (m : gmap string json) :
  task_id ∈ (Task.id <$> tasks) →
  m ≠ ∅ →
  ∃ new tasks',
    update_task task_id (Json (JObj m)) tasks =
      (Response (PTask new) 200, tasks') ∧
    get_task task_id tasks' = (Response (PTask new) 200, tasks').
Proof.
  intros [[i found] Hf]%find_task_is_Some Hm.
  rewrite (update_task_obj _ _ _ _ _ Hf Hm).
  eexists _, _. split; [reflexivity|].
  destruct (find_task_Some _ _ _ _ Hf) as (Hi & Hid & Hfirst).
  assert (find_task task_id (<[i:=patched m found]> tasks) =
          Some (i, patched m found)) as Hfind.
  { unfold find_task. apply list_find_Some. split_and!.
    - apply list_lookup_insert_eq. by eapply lookup_lt_Some.
    - by rewrite patched_id.
    - intros j other Hj Hlt. rewrite list_lookup_insert_ne in Hj by lia.
      by eapply Hfirst. }
  unfold get_task. by rewrite Hfind.
Qed.

Lemma update_then_get_witness :
  ∃ new tasks',
    update_task 1 (Json (JObj body_update)) seed =
      (Response (PTask new) 200, tasks') ∧
    get_task 1 tasks' = (Response (PTask new) 200, tasks').
Proof.
  apply (update_then_get seed 1 body_update).
  - apply (bool_decide_unpack _). vm_compute. exact I.
  - intros Heq. apply (f_equal (λ b : gmap string json, b !! "title")) in Heq.
    vm_compute in Heq. discriminate.
Defined.

(** X6: what GET /tasks/<j> answers is not changed by a POST when j is
    stored, nor by a PUT or a DELETE on another id, nor by any of the
    reading requests. *)
Theorem get_task_unaffected tasks j r :
  match r with
  | POST_tasks _ _ => j ∈ (Task.id <$> tasks)
  | PUT_task a _ | DELETE_task a => a ≠ j
  | _ => True
  end →
  (get_task j (handle r tasks).2).1 = (get_task j tasks).1.
Proof.
  destruct r as [| a | req now | a req | a | now]; cbn [handle]; intros Hr.
  - done.
  - unfold get_task at 2. by destruct (find_task a tasks) as [[? ?]|].
  - destruct (create_task_cases req now tasks) as [[-> _]|(v & d & ->)];
      [done|]. cbn [snd].
    rewrite !get_task_by_find. by rewrite find_task_snoc_old.
  - rewrite update_task_cases.
    destruct (find_task a tasks) as [[i found]|] eqn:Hf; [|done].
    destruct req as [data|]; [|done].
    destruct (truthy data); [|done].
    destruct data; try done. cbn [snd].
    destruct (find_task_Some _ _ _ _ Hf) as (Hi & Hid & _).
    rewrite !get_task_by_find.
    rewrite (find_task_insert_other j tasks i found); [done|done|..].
    + by rewrite Hid.
    + by rewrite patched_id, Hid.
  - rewrite delete_task_cases.
    destruct (find_task a tasks) as [[i found]|] eqn:Hf; [|done].
    cbn [snd]. rewrite !get_task_by_find.
    by rewrite find_task_filter_other.
  - done.
Qed.

Lemma get_task_unaffected_witness :
  (get_task 1 (handle (DELETE_task 2) seed).2).1 = (get_task 1 seed).1.
Proof.
  apply (get_task_unaffected seed 1 (DELETE_task 2)).
  cbn. discriminate.
Defined.

(** ** PUT /tasks/<id>: answers, what it keeps, repeating it *)

Lemma patched_idem m task : patched m (patched m task) = patched m task.
Proof.
  destruct task as [i t d c a]. unfold patched, set_completed, set_description,
    set_title. cbn [Task.id Task.title Task.description Task.completed
                    Task.created_at].
  f_equal.
  - by destruct (m !! "title").
  - by destruct (m !! "description").
  - by destruct (m !! "completed").
Qed.

Lemma find_task_insert_same task_id tasks i found new :
  find_task task_id tasks = Some (i, found) →
  Task.id new = task_id →
  find_task task_id (<[i := new]> tasks) = Some (i, new).
Proof.
  intros Hf Hid. destruct (find_task_Some _ _ _ _ Hf) as (Hi & _ & Hfirst).
  unfold find_task. apply list_find_Some. split_and!.
  - apply list_lookup_insert_eq. by eapply lookup_lt_Some.
  - done.
  - intros j other Hj Hlt. rewrite list_lookup_insert_ne in Hj by lia.
    by eapply Hfirst.
Qed.

Lemma update_task_fmap {A} (f : Task.t → A) task_id req tasks :
  (∀ m task, f (patched m task) = f task) →
  f <$> (update_task task_id req tasks).2 = f <$> tasks.
Proof.
  intros Hf. rewrite update_task_cases.
  destruct (find_task task_id tasks) as [[i found]|] eqn:Hfind; [|done].
  destruct req as [data|]; [|done].
  destruct (truthy data); [|done].
  destruct data; try done. cbn [snd].
  destruct (find_task_Some _ _ _ _ Hfind) as (Hi & _ & _).
  rewrite list_fmap_insert, Hf.
  apply list_insert_id. by rewrite list_lookup_fmap, Hi.
Qed.

(** X7: the answers of a PUT on a stored id.  It is 200 exactly when the
    body decodes to a non-empty object, 400 exactly when the body decodes
    to a value that is false in Python's sense, and 500 in the other
    cases: a body that cannot be decoded, or a true value that is not an
    object (a number, a string, an array).  Unless the answer is 200 the
    list is left as it was. *)
Theorem update_task_status tasks task_id req :
  task_id ∈ (Task.id <$> tasks) →
  (status (update_task task_id req tasks).1 = 200 ↔
   ∃ m, req = Json (JObj m) ∧ m ≠ ∅) ∧
  (status (update_task task_id req tasks).1 = 400 ↔
   ∃ data, req = Json data ∧ truthy data = false) ∧
  (status (update_task task_id req tasks).1 = 200 ∨
   status (update_task task_id req tasks).1 = 400 ∨
   update_task task_id req tasks =
     (Response (PError "Internal server error") 500, tasks)) ∧
  (status (update_task task_id req tasks).1 ≠ 200 →
   (update_task task_id req tasks).2 = tasks).
Proof.
  intros [[i found] Hf]%find_task_is_Some.
  rewrite update_task_cases, Hf.
  destruct req as [data|].
  2:{ split_and!; [|  |auto|done].
      - split; [intros H; cbn in H; lia|]. intros (? & ? & _). discriminate.
      - split; [intros H; cbn in H; lia|]. intros (? & ? & _). discriminate. }
  destruct (truthy data) eqn:Ht.
  2:{ split_and!; [| |auto|done].
      - split; [intros H; cbn in H; lia|].
        intros (m & Heq & Hm). injection Heq as ->.
        cbn in Ht. apply negb_false_iff, bool_decide_eq_true in Ht. done.
      - split; [eauto|done]. }
  destruct data as [| b | z | f | s | l | m].
  7:{ assert (m ≠ ∅) as Hm.
      { intros ->. by rewrite truthy_obj_empty in Ht. }
      split_and!; [| |auto|done].
      - split; [eauto|done].
      - split; [intros H; cbn in H; lia|].
        intros (data & Heq & Hfalse). injection Heq as <-. congruence. }
  all: split_and!; [| |auto|done].
  all: split; [intros H; cbn in H; lia|].
  all: try (intros (? & ? & _); discriminate).
  all: intros (data & Heq & Hfalse); injection Heq as <-; congruence.
Qed.

Lemma update_task_status_witness :
  update_task 1 (Json (JArr [JInt 1])) seed =
    (Response (PError "Internal server error") 500, seed).
Proof.
  destruct (update_task_status seed 1 (Json (JArr [JInt 1])))
    as (_ & _ & [H|[H|H]] & _).
  - apply (bool_decide_unpack _). vm_compute. exact I.
  - vm_compute in H. discriminate.
  - vm_compute in H. discriminate.
  - exact H.
Defined.

(** X8: whatever the request, a PUT keeps the length of the list and, cell
    by cell, the id and the created_at of every task. *)
Theorem update_task_keeps tasks task_id req :
  length (update_task task_id req tasks).2 = length tasks ∧
  Task.id <$> (update_task task_id req tasks).2 = Task.id <$> tasks ∧
  Task.created_at <$> (update_task task_id req tasks).2 =
    Task.created_at <$> tasks.
Proof.
  assert (Task.id <$> (update_task task_id req tasks).2 = Task.id <$> tasks)
    as Hids by (by apply update_task_fmap).
  split_and!; [|done|by apply update_task_fmap].
  apply (f_equal length) in Hids. by rewrite !length_fmap in Hids.
Qed.

(** X9: sending the same PUT a second time changes nothing more: the
    answer and the list are those of the first time. *)
Theorem update_task_twice tasks task_id req :
  update_task task_id req (update_task task_id req tasks).2 =
    update_task task_id req tasks.
Proof.
  rewrite (update_task_cases task_id req tasks).
  destruct (find_task task_id tasks) as [[i found]|] eqn:Hf.
  2:{ cbn [snd]. by rewrite update_task_cases, Hf. }
  destruct req as [data|].
  2:{ cbn [snd]. by rewrite update_task_cases, Hf. }
  destruct (truthy data) eqn:Ht.
  2:{ cbn [snd]. by rewrite update_task_cases, Hf, Ht. }
  destruct data as [| b | z | f | s | l | m];
    try (cbn [snd]; by rewrite update_task_cases, Hf, Ht).
  cbn [snd]. rewrite update_task_cases.
  destruct (find_task_Some _ _ _ _ Hf) as (_ & Hid & _).
  rewrite (find_task_insert_same _ _ _ _ (patched m found) Hf)
    by (by rewrite patched_id).
  rewrite Ht, patched_idem. by rewrite list_insert_insert_eq.
Qed.

(** ** DELETE /tasks/<id> on any list *)

Lemma delete_task_list task_id tasks :
  (delete_task task_id tasks).2 =
    filter (λ task, Task.id task ≠ task_id) tasks.
Proof.
  rewrite delete_task_cases.
  destruct (find_task task_id tasks) as [[i found]|] eqn:Hf; [done|].
  cbn [snd]. symmetry. apply filter_keeps_all.
  intros task Hin Heq. apply find_task_None in Hf. apply Hf.
  apply list_elem_of_fmap. eauto.
Qed.

(** X10: two DELETEs give the same list in either order: the tasks whose id
    is neither of the two, in the order they had. *)
Theorem delete_task_commute tasks a b :
  (delete_task a (delete_task b tasks).2).2 =
    (delete_task b (delete_task a tasks).2).2 ∧
  (delete_task a (delete_task b tasks).2).2 =
    filter (λ task, Task.id task ≠ a ∧ Task.id task ≠ b) tasks.
Proof.
  rewrite !delete_task_list, !list_filter_filter. split; [|done].
  apply list_filter_iff. tauto.
Qed.

(** ** The order of the list *)

Lemma ids_sorted_snoc (tasks : list Task.t) new_task :
  StronglySorted Z.lt (Task.id <$> tasks) →
  (∀ task, task ∈ tasks → Task.id task < Task.id new_task) →
  StronglySorted Z.lt (Task.id <$> (tasks ++ [new_task])).
Proof.
  intros Hs Hlt. rewrite fmap_app. apply StronglySorted_app_2; [|done|].
  - intros x1 x2 (task & -> & Hin)%list_elem_of_fmap Hx2.
    apply list_elem_of_singleton in Hx2 as ->. by apply Hlt.
  - repeat constructor.
Qed.

Lemma ids_sorted_filter (P : Task.t → Prop) `{∀ x, Decision (P x)}
    (tasks : list Task.t) :
  StronglySorted Z.lt (Task.id <$> tasks) →
  StronglySorted Z.lt (Task.id <$> filter P tasks).
Proof.
  induction tasks as [|task tasks IH]; [done|].
  rewrite fmap_cons, StronglySorted_cons. intros [Hall Hs].
  rewrite filter_cons. destruct (decide (P task)); [|auto].
  rewrite fmap_cons, StronglySorted_cons. split; [|auto].
  apply Forall_forall. intros x (other & -> & Hin)%list_elem_of_fmap.
  apply list_elem_of_filter in Hin as [_ Hin].
  rewrite Forall_forall in Hall. apply Hall, list_elem_of_fmap. eauto.
Qed.

Lemma handle_ids_sorted r tasks :
  StronglySorted Z.lt (Task.id <$> tasks) →
  StronglySorted Z.lt (Task.id <$> (handle r tasks).2).
Proof.
  intros Hs. destruct r as [| task_id | req now | task_id req | task_id | now];
    cbn [handle].
  - done.
  - unfold get_task. by destruct (find_task task_id tasks) as [[? ?]|].
  - destruct (create_task_cases req now tasks) as [[-> _]|(v & d & ->)]; [done|].
    cbn [snd]. apply ids_sorted_snoc; [done|].
    intros task Hin. by apply py_max_fresh.
  - by rewrite update_task_ids.
  - rewrite delete_task_list. by apply ids_sorted_filter.
  - done.
Qed.

Lemma handle_ids_positive r tasks :
  (∀ task, task ∈ tasks → 1 ≤ Task.id task) →
  ∀ task, task ∈ (handle r tasks).2 → 1 ≤ Task.id task.
Proof.
  intros Hpos. assert (∀ x, x ∈ (Task.id <$> tasks) → 1 ≤ x) as Hids.
  { intros x (task & -> & Hin)%list_elem_of_fmap. auto. }
  destruct r as [| task_id | req now | task_id req | task_id | now];
    cbn [handle].
  - done.
  - unfold get_task. by destruct (find_task task_id tasks) as [[? ?]|].
  - destruct (create_task_cases req now tasks) as [[-> _]|(v & d & ->)]; [done|].
    cbn [snd]. intros task [Hin|Hin]%elem_of_app; [auto|].
    apply list_elem_of_singleton in Hin as ->. cbn [Task.id].
    destruct tasks as [|first tasks]; [cbn; lia|].
    assert (1 ≤ Task.id first) by (apply Hpos, elem_of_cons; by left).
    assert (Task.id first < py_max (Task.id <$> first :: tasks) 0 + 1).
    { apply py_max_fresh, elem_of_cons. by left. }
    lia.
  - intros task Hin. apply Hids. rewrite <- (update_task_ids task_id req).
    apply list_elem_of_fmap. eauto.
  - rewrite delete_task_list. intros task [_ Hin]%list_elem_of_filter. auto.
  - done.
Qed.

Lemma reachable_ids_sorted tasks :
  reachable tasks → StronglySorted Z.lt (Task.id <$> tasks).
Proof.
  induction 1 as [|r tasks _ IH]; [|by apply handle_ids_sorted].
  repeat constructor; cbn; lia.
Qed.

Lemma reachable_ids_positive tasks :
  reachable tasks → ∀ task, task ∈ tasks → 1 ≤ Task.id task.
Proof.
  induction 1 as [|r tasks _ IH]; [|by apply handle_ids_positive].
  intros task Hin. unfold seed in Hin.
  repeat (apply elem_of_cons in Hin as [->|Hin]; [cbn; lia|]).
  by apply elem_of_nil in Hin.
Qed.

(** X11: on every list the process can hold the ids are at least 1 and
    strictly increasing along the list, so GET /tasks lists the tasks by
    increasing id. *)
Theorem reachable_ids_increasing tasks :
  reachable tasks →
  StronglySorted Z.lt (Task.id <$> tasks) ∧
  (∀ task, task ∈ tasks → 1 ≤ Task.id task) ∧
  (∀ i j a b,
     tasks !! i = Some a → tasks !! j = Some b → (i < j)%nat →
     Task.id a < Task.id b).
Proof.
  intros Hreach.
  pose proof (reachable_ids_sorted _ Hreach) as Hs.
  split_and!; [done|by apply reachable_ids_positive|].
  intros i j a b Hi Hj Hlt.
  pose proof (take_drop_middle _ _ _ Hj) as Hsplit.
  rewrite <- Hsplit, fmap_app, fmap_cons in Hs.
  apply (StronglySorted_app_1_elem_of _ _ _ (Task.id a) (Task.id b)) in Hs;
    [done| |apply elem_of_cons; by left].
  apply list_elem_of_fmap. exists a. split; [done|].
  apply list_elem_of_lookup. exists i. by rewrite lookup_take_lt by lia.
Qed.

Lemma reachable_ids_increasing_witness :
  StronglySorted Z.lt
    (Task.id <$> (handle (POST_tasks (Json (JObj body_test_task))
                            "2024-01-03T00:00:00") seed).2).
Proof.
  apply (reachable_ids_increasing
           (handle (POST_tasks (Json (JObj body_test_task))
                      "2024-01-03T00:00:00") seed).2).
  apply reachable_handle, reachable_seed.
Defined.

Lemma py_max_sorted_last (ids : list Z) (x d : Z) :
  StronglySorted Z.lt (ids ++ [x]) → py_max (ids ++ [x]) d = x.
Proof.
  intros Hs.
  assert (x ≤ py_max (ids ++ [x]) d) as Hge.
  { apply py_max_ge, elem_of_app. right. by apply list_elem_of_singleton. }
  assert (py_max (ids ++ [x]) d ∈ ids ++ [x]) as Hin.
  { apply py_max_in. by destruct ids. }
  apply elem_of_app in Hin as [Hin|Hin].
  - assert (py_max (ids ++ [x]) d < x); [|lia].
    eapply StronglySorted_app_1_elem_of; [done..|].
    by apply list_elem_of_singleton.
  - by apply list_elem_of_singleton in Hin.
Qed.

(** X12: on a list the process can hold, a POST that creates a task gives
    it the id of the last task of the list plus 1 (and 1 when the list is
    empty). *)
Theorem create_task_id_after_last tasks req now new_task tasks' :
  reachable tasks →
  create_task req now tasks = (Response (PTask new_task) 201, tasks') →
  match last tasks with
  | Some task => Task.id new_task = Task.id task + 1
  | None => Task.id new_task = 1
  end.
Proof.
  intros Hs%reachable_ids_sorted Hrun.
  destruct (create_task_cases req now tasks) as [[_ Hst]|(v & d & Heq)].
  { rewrite Hrun in Hst. cbn in Hst. destruct Hst; discriminate. }
  rewrite Heq in Hrun. cbn zeta in Hrun. injection Hrun as <- _.
  cbn [Task.id].
  destruct tasks as [|first rest] using rev_ind; [done|].
  rewrite last_snoc. rewrite fmap_app in Hs |- *.
  cbn [fmap list_fmap] in Hs |- *.
  by rewrite (py_max_sorted_last _ _ _ Hs).
Qed.

Lemma create_task_id_after_last_witness :
  match last seed with
  | Some task => 3 = Task.id task + 1
  | None => 3 = 1
  end.
Proof.
  apply (create_task_id_after_last seed (Json (JObj body_test_task))
           "2024-01-03T00:00:00"
           (Task.Make 3 (JStr "Test Task") (JStr "This is a test task")
              (JBool false) "2024-01-03T00:00:00Z")
           (seed ++
            [Task.Make 3 (JStr "Test Task") (JStr "This is a test task")
               (JBool false) "2024-01-03T00:00:00Z"])
           reachable_seed).
  vm_compute. reflexivity.
Defined.

(** ** What a request does to the counts and to the stored records *)

(** X13: a POST that creates a task raises total_tasks and pending_tasks of
    GET /metrics by one and leaves completed_tasks as it was. *)
Theorem metrics_after_create tasks now now' (m : gmap string json) v :
  m !! "title" = Some v →
  ∃ total n_completed n_pending,
    metrics now' tasks =
      (Response (PMetrics total n_completed n_pending (now' +:+ "Z")) 200,
       tasks) ∧
    (metrics now' (create_task (Json (JObj m)) now tasks).2).1 =
      Response
        (PMetrics (S total) n_completed (S n_pending) (now' +:+ "Z")) 200.
Proof.
  intros Hv. rewrite (create_task_obj_title _ _ _ _ Hv). cbn zeta. cbn [snd].
  eexists _, _, _. split; [reflexivity|].
  unfold metrics. cbn [fst]. rewrite !filter_app, !length_app.
  rewrite (filter_cons_False _ _ []) by (cbn; discriminate).
  rewrite (filter_cons_True _ _ []) by done.
  cbn [filter list_filter length]. rewrite !Nat.add_0_r, !Nat.add_1_r.
  reflexivity.
Qed.

Lemma metrics_after_create_witness :
  (metrics "2024-01-04T00:00:00"
     (create_task (Json (JObj body_test_task)) "2024-01-03T00:00:00" seed).2).1
  = Response (PMetrics 3 0 3 "2024-01-04T00:00:00Z") 200.
Proof.
  destruct (metrics_after_create seed "2024-01-03T00:00:00"
              "2024-01-04T00:00:00" body_test_task (JStr "Test Task"))
    as (total & n_completed & n_pending & Hbefore & Hafter).
  { vm_compute. reflexivity. }
  rewrite Hafter. vm_compute in Hbefore.
  injection Hbefore as <- <- <-. reflexivity.
Defined.

(** X14: no request rewrites a creation time.  Every task on the list
    after a request either was on the list before with the same id and the
    same created_at, or is the task a POST has just created, whose id is
    above every id stored before. *)
Theorem handle_keeps_created_at r tasks task' :
  task' ∈ (handle r tasks).2 →
  (∃ task,
     task ∈ tasks ∧ Task.id task = Task.id task' ∧
     Task.created_at task = Task.created_at task') ∨
  ((∃ req now, r = POST_tasks req now) ∧
   ∀ task, task ∈ tasks → Task.id task < Task.id task').
Proof.
  destruct r as [| task_id | req now | task_id req | task_id | now];
    cbn [handle].
  - intros Hin. left. eauto.
  - unfold get_task. destruct (find_task task_id tasks) as [[? ?]|];
      intros Hin; left; eauto.
  - destruct (create_task_cases req now tasks) as [[-> _]|(v & d & ->)].
    { intros Hin. left. eauto. }
    cbn [snd]. intros [Hin|Hin]%elem_of_app; [left; eauto|].
    apply list_elem_of_singleton in Hin as ->. right. split; [eauto|].
    cbn [Task.id]. intros task Hin. by apply py_max_fresh.
  - rewrite update_task_cases.
    destruct (find_task task_id tasks) as [[i found]|] eqn:Hf;
      [|intros Hin; left; eauto].
    destruct req as [data|]; [|intros Hin; left; eauto].
    destruct (truthy data); [|intros Hin; left; eauto].
    destruct data; cbn [snd]; try (intros Hin; left; by eauto).
    destruct (find_task_Some _ _ _ _ Hf) as (Hi & _ & _).
    intros (j & Hj)%list_elem_of_lookup. left.
    apply list_lookup_insert_Some in Hj as [(-> & <- & _)|(_ & Hj)].
    + exists found. split_and!; [by eapply list_elem_of_lookup_2|done..].
    + exists task'. split_and!; [by eapply list_elem_of_lookup_2|done..].
  - rewrite delete_task_list. intros [_ Hin]%list_elem_of_filter.
    left. eauto.
  - intros Hin. left. eauto.
Qed.

Lemma handle_keeps_created_at_witness :
  (∃ task,
     task ∈ seed ∧ Task.id task = 1 ∧
     Task.created_at task = "2024-01-01T00:00:00Z") ∨
  ((∃ req now, PUT_task 1 (Json (JObj body_update)) = POST_tasks req now) ∧
   ∀ task, task ∈ seed → Task.id task < 1).
Proof.
  apply (handle_keeps_created_at (PUT_task 1 (Json (JObj body_update))) seed
           (Task.Make 1 (JStr "Updated Task")
              (JStr "Understand containerization") (JBool true)
              "2024-01-01T00:00:00Z")).
  apply list_elem_of_lookup. exists 0%nat. vm_compute. reflexivity.
Defined.

(** ** Configuration and GET / *)

Lemma lower_char_fixed_iff (c d : Ascii.ascii) :
  lower_char d = d →
  lower_char c = d ↔ same_letter c d.
Proof.
  unfold lower_char, same_letter. cbn zeta.
  pose proof (Ascii.N_ascii_bounded c) as Hc.
  pose proof (Ascii.N_ascii_bounded d) as Hd.
  set (n := Ascii.N_of_ascii c) in *. set (k := Ascii.N_of_ascii d) in *.
  assert (c = d ↔ n = k) as Heq.
  { split; [by intros ->|]. unfold n, k. intros H.
    rewrite <- (Ascii.ascii_N_embedding c), <- (Ascii.ascii_N_embedding d).
    by rewrite H. }
  assert (∀ x, (x < 256)%N → Ascii.ascii_of_N x = d ↔ x = k) as Hof.
  { intros x Hx. split.
    - intros <-. unfold k. by rewrite Ascii.N_ascii_embedding.
    - intros ->. apply Ascii.ascii_N_embedding. }
  intros Hfix.
  assert (¬ (65 ≤ k ≤ 90)%N) as Hlow.
  { intros [H1 H2].
    rewrite (proj2 (N.leb_le 65 k) H1), (proj2 (N.leb_le k 90) H2) in Hfix.
    cbn [andb] in Hfix. apply Hof in Hfix; lia. }
  destruct (65 <=? n)%N eqn:H1; destruct (n <=? 90)%N eqn:H2; cbn [andb].
  all: try apply N.leb_le in H1; try apply N.leb_le in H2.
  all: try apply N.leb_gt in H1; try apply N.leb_gt in H2.
  - rewrite Hof by lia. rewrite Heq. lia.
  - rewrite Heq. lia.
  - rewrite Heq. lia.
  - rewrite Heq. lia.
Qed.

Lemma lower_fixed_iff (s t : string) :
  lower t = t → lower s = t ↔ same_letters s t.
Proof.
  revert t. induction s as [|c s IH]; intros [|d t] Ht; cbn.
  - split; [intros _; exact I|reflexivity].
  - split; [discriminate|intros []].
  - split; [discriminate|intros []].
  - cbn in Ht. injection Ht as Hd Ht.
    rewrite <- (lower_char_fixed_iff c d Hd), <- (IH t Ht).
    split; [intros H; by injection H|intros [-> ->]; done].
Qed.

Lemma same_letters_single (v : string) (d : Ascii.ascii) :
  same_letters v (String d "") ↔ ∃ c, v = String c "" ∧ same_letter c d.
Proof.
  destruct v as [|c [|c' v]]; cbn.
  - split; [intros []|intros (? & ? & _); discriminate].
  - split; [intros [H _]; by exists c|intros (? & [= <-] & H); by split].
  - split; [intros [_ []]|intros (? & ? & _); discriminate].
Qed.

Lemma same_letter_1 (c : Ascii.ascii) : same_letter c (Ascii.ascii_of_N 49) ↔ c = Ascii.ascii_of_N 49.
Proof.
  unfold same_letter. cbn. split; [|by left].
  intros [->|[[? ?]|[? ?]]]; [done|lia..].
Qed.

Lemma same_letter_t (c : Ascii.ascii) :
  same_letter c (Ascii.ascii_of_N 116) ↔
  c = Ascii.ascii_of_N 116 ∨ c = Ascii.ascii_of_N 84.
Proof.
  unfold same_letter. cbn. split.
  - intros [->|[[? Hk]|[? ?]]]; [by left| |lia].
    right. rewrite <- (Ascii.ascii_N_embedding c).
    replace (Ascii.N_of_ascii c) with 84%N by lia. reflexivity.
  - intros [->| ->]; [by left|]. right. left. cbn. lia.
Qed.

(** X15: debug mode is on exactly when FLASK_DEBUG is set to true in any
    mix of upper and lower case, to 1, or to t or T.  It is off when the
    variable is not set and for every other value, yes and on among
    them. *)
Theorem config_DEBUG_accepts (environ : gmap string string) :
  config_DEBUG environ = true ↔
  ∃ v, environ !! "FLASK_DEBUG" = Some v ∧
       (same_letters v "true" ∨ v = "1" ∨ v = "t" ∨ v = "T").
Proof.
  unfold config_DEBUG, getenv. rewrite bool_decide_eq_true.
  rewrite !elem_of_cons, elem_of_nil.
  rewrite !lower_fixed_iff by reflexivity.
  rewrite !same_letters_single.
  setoid_rewrite same_letter_1. setoid_rewrite same_letter_t.
  destruct (environ !! "FLASK_DEBUG") as [v|]; cbn [default from_option id].
  - split.
    + intros H. exists v. split; [reflexivity|].
      destruct H as [H|[(c & -> & ->)|[(c & -> & [-> | ->])|[]]]]; auto.
    + intros (w & [= <-] & H).
      destruct H as [H | [-> | [-> | ->] ] ]; eauto 8.
  - split; [|intros (? & ? & _); discriminate].
    intros [H|[(c & H & _)|[(c & H & _)|[]]]]; [|discriminate..].
    cbn in H. destruct H as [[H|[[? ?]|[? ?]]] _]; [discriminate|cbn in *; lia..].
Qed.

(** What the statement means on some settings. *)
Example config_DEBUG_settings :
  config_DEBUG ∅ = false ∧
  config_DEBUG {["FLASK_DEBUG" := "True"]} = true ∧
  config_DEBUG {["FLASK_DEBUG" := "TRUE"]} = true ∧
  config_DEBUG {["FLASK_DEBUG" := "1"]} = true ∧
  config_DEBUG {["FLASK_DEBUG" := "yes"]} = false ∧
  config_DEBUG {["FLASK_DEBUG" := ""]} = false.
Proof. vm_compute. done. Qed.

(** X16: GET / reports a variable that is set as it is, the empty string
    included, and the documented default only for a variable that is not
    set; no variable besides ENVIRONMENT, HOSTNAME, POD_NAMESPACE and
    NODE_NAME has any effect on the answer. *)
Theorem home_reads_four_variables (environ : gmap string string) now :
  (∀ key v,
     key ∉ ["ENVIRONMENT"; "HOSTNAME"; "POD_NAMESPACE"; "NODE_NAME"] →
     home (<[key := v]> environ) now = home environ now) ∧
  (∀ v, home_environment (home (<["ENVIRONMENT" := v]> environ) now).1 = v) ∧
  (∀ v, pod_name (home_kubernetes_info
                    (home (<["HOSTNAME" := v]> environ) now).1) = v) ∧
  (∀ v, namespace (home_kubernetes_info
                     (home (<["POD_NAMESPACE" := v]> environ) now).1) = v) ∧
  (∀ v, node_name (home_kubernetes_info
                     (home (<["NODE_NAME" := v]> environ) now).1) = v) ∧
  home (delete "ENVIRONMENT"
          (delete "HOSTNAME"
             (delete "POD_NAMESPACE" (delete "NODE_NAME" environ)))) now =
    (HomePayload "Flask App Running on EKS!" "1.0.0" (now +:+ "Z")
       "development" (KubernetesInfo "unknown" "default" "unknown"),
     200).
Proof.
  split_and!.
  - intros key v Hkey. unfold home, getenv.
    rewrite !lookup_insert_ne; [done|..];
      intros ->; apply Hkey; repeat constructor.
  - intros v. unfold home, getenv. cbn. by rewrite lookup_insert_eq.
  - intros v. unfold home, getenv. cbn. by rewrite lookup_insert_eq.
  - intros v. unfold home, getenv. cbn. by rewrite lookup_insert_eq.
  - intros v. unfold home, getenv. cbn. by rewrite lookup_insert_eq.
  - unfold home, getenv.
    repeat (rewrite lookup_delete_eq ||
            rewrite lookup_delete_ne by discriminate).
    reflexivity.
Qed.

Lemma home_reads_four_variables_witness :
  home (<["FLASK_DEBUG" := "1"]> ∅) "2024-06-01T12:00:00" =
  home ∅ "2024-06-01T12:00:00".
Proof.
  destruct (home_reads_four_variables ∅ "2024-06-01T12:00:00") as (H & _).
  apply H. apply (bool_decide_unpack _). vm_compute. exact I.
Defined.

(** ** The test session of test_app.py *)

Lemma tests_can_run_tail t rest tasks :
  tests_can_run (t :: rest) tasks → tests_can_run rest tasks.
Proof.
  intros (H1 & H2 & H3 & H4). split_and!; [done| |done|].
  - intros ?. apply H2. by right.
  - intros ?. apply H4. by right.
Qed.

Lemma tests_can_run_ids rest tasks tasks' :
  Task.id <$> tasks' = Task.id <$> tasks →
  tests_can_run rest tasks → tests_can_run rest tasks'.
Proof. unfold tests_can_run. by intros ->. Qed.

Lemma ids_filter_other a (tasks : list Task.t) i :
  i ∈ (Task.id <$> filter (λ task, Task.id task ≠ a) tasks) ↔
  i ∈ (Task.id <$> tasks) ∧ i ≠ a.
Proof.
  rewrite !list_elem_of_fmap. split.
  - intros (task & -> & [Hne Hin]%list_elem_of_filter). eauto.
  - intros [(task & -> & Hin) Hne]. exists task. split; [done|].
    by apply list_elem_of_filter.
Qed.

Lemma find_task_stored task_id tasks :
  task_id ∈ (Task.id <$> tasks) →
  ∃ i task, find_task task_id tasks = Some (i, task) ∧
            Task.id task = task_id.
Proof.
  intros [[i task] Hfind]%find_task_is_Some. exists i, task.
  split; [done|]. by apply find_task_Some in Hfind as (_ & ? & _).
Qed.

Lemma no_task_999 rest tasks :
  tests_can_run rest tasks → find_task 999 tasks = None.
Proof.
  intros (_ & _ & H3 & _). apply find_task_None. intros Hin.
  apply H3 in Hin. lia.
Qed.

Lemma append_assoc (a b c : string) : (a +:+ b) +:+ c = a +:+ b +:+ c.
Proof.
  induction a as [|x a IH]; [reflexivity|].
  change (String x ((a +:+ b) +:+ c) = String x (a +:+ b +:+ c)).
  by rewrite IH.
Qed.

Lemma test_passes clock t rest tasks :
  t ∉ rest →
  tests_can_run (t :: rest) tasks →
  test_asserts t (handle (test_request t (clock t)) tasks).1 = true ∧
  tests_can_run rest (handle (test_request t (clock t)) tasks).2.
Proof.
  intros Hnew Hinv. pose proof (tests_can_run_tail _ _ _ Hinv) as Htail.
  destruct t; cbn [test_request handle].
  - done.
  - destruct Hinv as (H1 & _).
    apply find_task_stored in H1 as (i & task & Hfind & Hid).
    unfold get_task. rewrite Hfind. cbn. rewrite Hid. done.
  - unfold get_task. rewrite (no_task_999 _ _ Hinv). done.
  - rewrite (create_task_obj_title _ _ body_test_task (JStr "Test Task"))
      by reflexivity.
    cbn zeta. cbn [fst snd]. split; [reflexivity|].
    destruct Hinv as (H1 & H2 & H3 & H4).
    assert (py_max (Task.id <$> tasks) 0 ≤ 2) as Hmax.
    { apply H4; [by left|]. apply py_max_in. intros Hnil.
      rewrite Hnil in H1. by apply elem_of_nil in H1. }
    unfold tests_can_run. rewrite fmap_app. cbn [fmap list_fmap Task.id].
    split_and!.
    + apply elem_of_app. by left.
    + intros ?. apply elem_of_app. left. apply H2. by right.
    + intros i [Hi|Hi%list_elem_of_singleton]%elem_of_app; [by apply H3|lia].
    + intros ?. done.
  - rewrite create_task_no_title; [done|].
    right. exists body_no_title. split; reflexivity.
  - destruct Hinv as (H1 & _).
    apply find_task_stored in H1 as (i & task & Hfind & Hid).
    rewrite (update_task_obj _ _ _ _ _ Hfind).
    + split; [reflexivity|].
      eapply tests_can_run_ids; [|exact Htail].
      rewrite <- (update_task_ids 1 (Json (JObj body_update)) tasks).
      by rewrite (update_task_obj _ _ _ _ _ Hfind).
    + intros Hempty.
      assert (body_update !! "title" = (∅ : gmap string json) !! "title")
        as Hlook by (by rewrite Hempty).
      rewrite lookup_empty in Hlook. discriminate Hlook.
  - rewrite update_task_missing by exact (no_task_999 _ _ Hinv). done.
  - destruct Hinv as (H1 & H2 & H3 & H4).
    destruct (find_task_stored 2 tasks) as (i & task & Hfind & Hid).
    { apply H2. by left. }
    rewrite (delete_task_found _ _ _ _ Hfind). cbn [fst snd]. split.
    + cbn [test_asserts status body]. cbn [Z.eqb Pos.eqb andb].
      apply str_contains_app. exists ("Task " +:+ pretty 2 +:+ " "), "".
      clear. generalize (pretty 2). intros s.
      rewrite !append_assoc. reflexivity.
    + split_and!.
      * apply ids_filter_other. split; [done|lia].
      * intros ?. done.
      * intros k [Hk _]%ids_filter_other. by apply H3.
      * intros ? k [Hk _]%ids_filter_other. apply H4; [by right|done].
  - rewrite delete_task_missing by exact (no_task_999 _ _ Hinv). done.
  - done.
Qed.

(** X17: the ten tests of test_app.py on the task routes pass in whatever
    order they are run, and so does any selection of them, although they
    all work on the one list and none resets it: when no test is run
    twice, every assert holds. *)
Theorem tests_pass_in_any_order clock (order : list test) :
  NoDup order → run_tests clock order seed = true.
Proof.
  intros Hnodup.
  assert (tests_can_run order seed) as Hinv.
  { unfold tests_can_run, seed. cbn [fmap list_fmap Task.id].
    split_and!.
    - by left.
    - intros _. right. by left.
    - intros i Hi. repeat (apply elem_of_cons in Hi as [->|Hi]); [lia..|].
      by apply elem_of_nil in Hi.
    - intros _ i Hi. repeat (apply elem_of_cons in Hi as [->|Hi]); [lia..|].
      by apply elem_of_nil in Hi. }
  revert Hinv. generalize seed as tasks.
  induction Hnodup as [|t rest Hnew _ IH]; intros tasks Hinv; [done|].
  cbn [run_tests].
  destruct (test_passes clock t rest tasks Hnew Hinv) as [Hpass Hnext].
  destruct (handle (test_request t (clock t)) tasks) as [r tasks'].
  cbn [fst snd] in *. rewrite Hpass. cbn [andb]. by apply IH.
Qed.

Lemma tests_pass_in_any_order_witness :
  run_tests (λ _, "2024-06-01T12:00:00") (reverse file_order) seed = true.
Proof.
  apply (tests_pass_in_any_order (λ _, "2024-06-01T12:00:00")
           (reverse file_order)).
  apply (bool_decide_unpack _). vm_compute. exact I.
Defined.

(** Running a test twice is another matter: the second run of the delete
    test finds task 2 gone. *)
Example delete_test_twice_fails :
  run_tests (λ _, "2024-06-01T12:00:00")
    [test_delete_task; test_delete_task] seed = false.
Proof. vm_compute. reflexivity. Qed.
